(** * discord-commander: the security check, the approval ledger,
      the command runner and the conversation history

    A shallow embedding of [discord_commander.py].

    Conventions.
    - A Python [str] is a Rocq [string] holding the UTF-8 bytes of the text,
      so the string literals of the source appear verbatim.  [len] counts
      code points ([py_len]); [str.encode()] is the identity.
    - Library functions whose behaviour is fixed outside the repository
      ([str.lower], [str.strip], [re.search], [hashlib.md5],
      [subprocess.run], [datetime.now], the completion call) are Section
      variables: every theorem holds whatever they compute.  Module [Impl]
      and the scripted environment instantiate them for evaluation; module
      [Unicode] has UTF-8 decoding and [str.lower] as CPython computes it
      on ASCII and Greek letters.
    - Handlers are state transformers on a world made of the bot object,
      the operating system and a log of the calls made to [ctx.send], to
      the classifier, to [subprocess.run] and to the completion engine.
    - Python [int] is [Z]; [dict] used as a map is stdpp's [gmap]. *)

From Stdlib Require Import ZArith Ascii String List Bool Lia.
From stdpp Require Import gmap strings list pretty.

Local Open Scope string_scope.
Local Open Scope Z_scope.

(** ** Python [str] operations on UTF-8 text *)

Module PyStr.

(** A byte [10xxxxxx] continues a code point started earlier. *)
Definition is_continuation (a : ascii) : bool :=
  let n := N_of_ascii a in (128 <=? n)%N && (n <? 192)%N.

(** [len(s)]: the number of code points. *)
Fixpoint py_len (s : string) : Z :=
  match s with
  | EmptyString => 0
  | String a s' => (if is_continuation a then 0 else 1) + py_len s'
  end.

(** [s.startswith(p)]. *)
Fixpoint startswith (s p : string) {struct p} : bool :=
  match p, s with
  | EmptyString, _ => true
  | String _ _, EmptyString => false
  | String b p', String a s' => Ascii.eqb a b && startswith s' p'
  end.

(** [needle in hay]: substring containment. *)
Fixpoint contains (hay needle : string) : bool :=
  startswith hay needle ||
  match hay with
  | EmptyString => false
  | String _ hay' => contains hay' needle
  end.

(** Truthiness of a [str]: non-empty. *)
Definition truthy (s : string) : bool :=
  match s with EmptyString => false | String _ _ => true end.

(** [s.split(sep)] for a one-character separator. *)
Fixpoint split (s : string) (sep : ascii) : list string :=
  match s with
  | EmptyString => [EmptyString]
  | String a s' =>
      if Ascii.eqb a sep then EmptyString :: split s' sep
      else match split s' sep with
           | part :: parts => String a part :: parts
           | [] => [String a EmptyString]
           end
  end.

(** [sep.join(parts)]. *)
Fixpoint join (sep : string) (parts : list string) : string :=
  match parts with
  | [] => EmptyString
  | [part] => part
  | part :: parts' => part +:+ sep +:+ join sep parts'
  end.

(** [s.replace(old, new)] for a non-empty [old]: the occurrences of [old]
    are replaced from the left, without overlap.  [skip] counts the
    characters of an occurrence still to pass over. *)
Fixpoint replace_from (skip : nat) (s old new : string) : string :=
  match s with
  | EmptyString => EmptyString
  | String a s' =>
      match skip with
      | S k => replace_from k s' old new
      | O =>
          if startswith s old
          then new +:+ replace_from (Nat.pred (String.length old)) s' old new
          else String a (replace_from 0 s' old new)
      end
  end.

Definition replace (s old new : string) : string := replace_from 0 s old new.

End PyStr.
Import PyStr.

(** ** SecurityChecker *)

Inductive RiskLevel := low | medium | high.

Definition risk_level_str (r : RiskLevel) : string :=
  match r with low => "low" | medium => "medium" | high => "high" end.

(** The dict returned by [check_command]. *)
Record CheckResult := mkCheckResult {
  safe : bool;
  warnings : list string;
  dangerous_parts : list string;
  risk_level : RiskLevel
}.

Definition set_safe (b : bool) (r : CheckResult) : CheckResult :=
  mkCheckResult b (warnings r) (dangerous_parts r) (risk_level r).
Definition append_warning (w : string) (r : CheckResult) : CheckResult :=
  mkCheckResult (safe r) (warnings r ++ [w]) (dangerous_parts r) (risk_level r).
Definition append_dangerous_part (d : string) (r : CheckResult) : CheckResult :=
  mkCheckResult (safe r) (warnings r) (dangerous_parts r ++ [d]) (risk_level r).
Definition set_risk_level (l : RiskLevel) (r : CheckResult) : CheckResult :=
  mkCheckResult (safe r) (warnings r) (dangerous_parts r) l.

Record SecurityChecker := mkSecurityChecker {
  dangerous_commands : list string;
  suspicious_patterns : list string
}.

(** The five patterns [__init__] installs, as raw pattern text. *)
Definition default_suspicious_patterns : list string :=
  [ "[\|&;]";
    ">\s*[/\\]";
    "<.*>";
    "\$\([^)]*\)";
    "`[^`]*`" ].

Definition SecurityChecker_init (dangerous_commands : list string) : SecurityChecker :=
  mkSecurityChecker dangerous_commands default_suspicious_patterns.

Definition dangerous_warning (dangerous_cmd : string) : string :=
  "Обнаружена опасная команда: " +:+ dangerous_cmd.
Definition pattern_warning (pattern : string) : string :=
  "Подозрительный паттерн: " +:+ pattern.

Section Classifier.

(** [str.lower] and [re.search(pattern, text) is not None]. *)
Variable lower : string -> string.
Variable re_search : string -> string -> bool.

(** Body of the first loop of [check_command]. *)
Definition check_dangerous (command_lower : string)
    (result : CheckResult) (dangerous_cmd : string) : CheckResult :=
  if contains command_lower (lower dangerous_cmd)
  then append_warning (dangerous_warning dangerous_cmd)
         (append_dangerous_part dangerous_cmd (set_safe false result))
  else result.

(** Body of the second loop. *)
Definition check_pattern (command : string)
    (result : CheckResult) (pattern : string) : CheckResult :=
  if re_search pattern command
  then append_warning (pattern_warning pattern) (set_safe false result)
  else result.

Definition assign_risk_level (result : CheckResult) : CheckResult :=
  if (2 <? length (dangerous_parts result))%nat then set_risk_level high result
  else if (0 <? length (dangerous_parts result))%nat then set_risk_level medium result
  else result.

Definition check_command (self : SecurityChecker) (command : string) : CheckResult :=
  let result := mkCheckResult true [] [] low in
  let command_lower := lower command in
  let result := fold_left (check_dangerous command_lower) (dangerous_commands self) result in
  let result := fold_left (check_pattern command) (suspicious_patterns self) result in
  assign_risk_level result.

End Classifier.

(** ** Python list slicing *)

Module PyList.
Section Slice.
Context {A : Type}.

(** A given slice bound: a negative one counts from the end; both are
    clamped to the list (CPython's index adjustment for a positive step). *)
Definition adjust_index (len i : Z) : Z :=
  if i <? 0 then Z.max 0 (i + len) else Z.min i len.

(** [None] is an omitted bound. *)
Definition slice_bound (len dflt : Z) (b : option Z) : Z :=
  match b with None => dflt | Some i => adjust_index len i end.

(** Every [step]-th element, the first after [skip] elements. *)
Fixpoint every (step skip : nat) (l : list A) : list A :=
  match l with
  | [] => []
  | x :: l' =>
      match skip with
      | O => x :: every step (Nat.pred step) l'
      | S k => every step k l'
      end
  end.

(** [l[start:stop:step]] for a positive step. *)
Definition slice (start stop : option Z) (step : positive) (l : list A) : list A :=
  let len := Z.of_nat (length l) in
  let lo := slice_bound len 0 start in
  let hi := slice_bound len len stop in
  every (Pos.to_nat step) 0 (take (Z.to_nat (hi - lo)) (drop (Z.to_nat lo) l)).

End Slice.
End PyList.

(** ** MessageHistory *)

Record HistoryEntry := mkHistoryEntry {
  role : string;
  content : string;
  timestamp : string
}.

Record MessageHistory := mkMessageHistory {
  limit : Z;
  messages : list HistoryEntry
}.

Definition MessageHistory_init (limit : Z) : MessageHistory :=
  mkMessageHistory limit [].

Definition _compress_history (self : MessageHistory) : MessageHistory :=
  if limit self <? Z.of_nat (length (messages self)) then
    let recent := PyList.slice (Some (-20)) None 1 (messages self) in
    let old_compressed := PyList.slice None (Some (-20)) 5 (messages self) in
    mkMessageHistory (limit self) (old_compressed ++ recent)
  else self.

(** [now] is the text [datetime.now().isoformat()] read at the call. *)
Definition add_message (self : MessageHistory) (role content now : string)
    : MessageHistory :=
  let self := mkMessageHistory (limit self)
                (messages self ++ [mkHistoryEntry role content now]) in
  if limit self <? Z.of_nat (length (messages self))
  then _compress_history self
  else self.

Definition get_history (self : MessageHistory) : list HistoryEntry :=
  messages self.

Definition clear (self : MessageHistory) : MessageHistory :=
  mkMessageHistory (limit self) [].

(** ** CommandExecutor *)

(** The keyword arguments of the [subprocess.run] call. *)
Record RunArgs := mkRunArgs {
  args : string;
  shell : bool;
  capture_output : bool;
  text : bool;
  timeout : Z
}.

Record CompletedProcess := mkCompletedProcess {
  cp_stdout : string;
  cp_stderr : string;
  cp_returncode : Z
}.

(** How a [subprocess.run] call ends: it returns, or raises
    [TimeoutExpired], or raises another [Exception] [e], kept as [str(e)]. *)
Inductive RunOutcome :=
  | Returned (result : CompletedProcess)
  | RaisedTimeoutExpired
  | RaisedException (str_e : string).

(** The dict [execute_command] returns: with ["success": True] it has
    stdout, stderr and returncode; with ["success": False] it has error. *)
Inductive ExecResult :=
  | ExecSuccess (stdout stderr : string) (returncode : Z)
  | ExecFailure (error : string).

Definition success (r : ExecResult) : bool :=
  match r with ExecSuccess _ _ _ => true | ExecFailure _ => false end.

Record CommandExecutor := mkCommandExecutor { os_type : string }.

Definition timeout_error : string :=
  "Команда превысила лимит времени выполнения (30 сек)".

(** The call the [try] block makes. *)
Definition run_call (self : CommandExecutor) (command : string) : RunArgs :=
  if String.eqb (os_type self) "windows"
  then mkRunArgs command true true true 30
  else mkRunArgs command true true true 30.

(** The [try]/[except] around it. *)
Definition run_result (o : RunOutcome) : ExecResult :=
  match o with
  | Returned result =>
      ExecSuccess (cp_stdout result) (cp_stderr result) (cp_returncode result)
  | RaisedTimeoutExpired => ExecFailure timeout_error
  | RaisedException str_e => ExecFailure str_e
  end.

(** ** Text helpers of the handlers *)

(** The newline an f-string writes as a backslash followed by n. *)
Definition NL : string := String (ascii_of_nat 10) EmptyString.

Module PyFmt.

(** [s[:n]]: the first [n] code points. *)
Fixpoint str_take (n : nat) (s : string) : string :=
  match s with
  | EmptyString => EmptyString
  | String a s' =>
      if is_continuation a then String a (str_take n s')
      else match n with
           | O => EmptyString
           | S k => String a (str_take k s')
           end
  end.

Definition hex_digit (d : N) : ascii :=
  ascii_of_N (if (d <? 10)%N then 48 + d else 87 + d)%N.

(** [width] lowercase hexadecimal digits of [x], most significant first. *)
Fixpoint hex_fixed (width : nat) (x : N) : string :=
  match width with
  | O => EmptyString
  | S w => String (hex_digit ((x / 16 ^ N.of_nat w) mod 16)%N) (hex_fixed w x)
  end.

(** [hexdigest()] of a 128-bit digest given as a number. *)
Definition hexdigest (digest : N) : string := hex_fixed 32 digest.

End PyFmt.
Import PyFmt.

(** ** DiscordBot *)

(** The config dict; [None] is an absent key. *)
Record Config := mkConfig {
  cfg_discord_token : option string;
  cfg_command_prefix : option string;
  cfg_os_type : option string;
  cfg_g4f_model : option string;
  cfg_message_history_limit : option Z;
  cfg_dangerous_commands : option (list string);
  cfg_auto_approve_safe : option bool;
  cfg_max_command_length : option Z
}.

(** [config.get(key, dflt)]. *)
Definition get {A : Type} (value : option A) (dflt : A) : A :=
  match value with Some v => v | None => dflt end.

Record DiscordBot := mkDiscordBot {
  config : Config;
  history : MessageHistory;
  security_checker : SecurityChecker;
  executor : CommandExecutor;
  pending_commands : gmap string string
}.

Definition DiscordBot_init (config : Config) : DiscordBot :=
  mkDiscordBot config
    (MessageHistory_init (get (cfg_message_history_limit config) 50))
    (SecurityChecker_init (get (cfg_dangerous_commands config) []))
    (mkCommandExecutor (get (cfg_os_type config) "windows"))
    ∅.

Definition set_history (h : MessageHistory) (b : DiscordBot) : DiscordBot :=
  mkDiscordBot (config b) h (security_checker b) (executor b) (pending_commands b).
Definition set_pending_commands (p : gmap string string) (b : DiscordBot) : DiscordBot :=
  mkDiscordBot (config b) (history b) (security_checker b) (executor b) p.

(** What a handler does to its collaborators, in order. *)
Inductive Event :=
  | Send (content : string)       (* await ctx.send(content) *)
  | Classify (command : string)   (* self.security_checker.check_command(command) *)
  | Run (call : RunArgs)          (* subprocess.run(...) *)
  | Complete (model : string) (prompt : list (string * string)).
                                  (* g4f.ChatCompletion.create_async(...) *)

Definition is_run (e : Event) : bool :=
  match e with Run _ => true | _ => false end.
Definition is_classify (e : Event) : bool :=
  match e with Classify _ => true | _ => false end.

(** Presentation of an execution result in [_execute_command_directly]. *)
Definition render_result (result : ExecResult) : string :=
  match result with
  | ExecSuccess stdout stderr returncode =>
      let output := "" in
      let output :=
        if truthy stdout
        then output +:+ "📤 **Вывод:**" +:+ NL +:+ "```" +:+ NL +:+ stdout +:+ NL +:+ "```" +:+ NL
        else output in
      let output :=
        if truthy stderr
        then output +:+ "⚠️ **Предупреждения:**" +:+ NL +:+ "```" +:+ NL +:+ stderr +:+ NL +:+ "```" +:+ NL
        else output in
      let output :=
        if negb (returncode =? 0)
        then output +:+ "🔴 **Код возврата:** " +:+ pretty returncode +:+ NL
        else output in
      let output :=
        if negb (truthy output) then "✅ Команда выполнена успешно" else output in
      if 1800 <? py_len output
      then str_take 1800 output +:+ NL +:+ "... (вывод обрезан)"
      else output
  | ExecFailure error =>
      "❌ **Ошибка выполнения:**" +:+ NL +:+ "```" +:+ NL +:+ error +:+ NL +:+ "```"
  end.

Definition risk_color (r : RiskLevel) : string :=
  match r with low => "🟢" | medium => "🟡" | high => "🔴" end.

(** The prompt [_request_approval] sends. *)
Definition approval_prompt (command command_id : string) (security_result : CheckResult)
    : string :=
  let warning_text :=
    risk_color (risk_level security_result)
      +:+ " **ВНИМАНИЕ! Потенциально опасная команда**" +:+ NL in
  let warning_text := warning_text +:+ "📋 **Команда:** `" +:+ command +:+ "`" +:+ NL in
  let warning_text :=
    warning_text +:+ "⚠️ **Уровень риска:** "
      +:+ risk_level_str (risk_level security_result) +:+ NL in
  let warning_text :=
    match warnings security_result with
    | [] => warning_text
    | _ :: _ =>
        fold_left (fun warning_text warning => warning_text +:+ "• " +:+ warning +:+ NL)
          (warnings security_result)
          (warning_text +:+ "🚨 **Предупреждения:**" +:+ NL)
    end in
  warning_text +:+ NL +:+ "🔧 Для выполнения используйте: `!approve " +:+ command_id +:+ "`".

Definition too_long_message : string := "❌ Команда слишком длинная".
Definition not_found_message : string := "❌ Команда не найдена или уже выполнена".
Definition executing_message (command : string) : string :=
  "⚙️ Выполняю команду: `" +:+ command +:+ "`".

(** How the [create_async] call ends: with the response text, or with
    an [Exception] [e], kept as [str(e)]. *)
Inductive CompletionOutcome :=
  | Responded (response : string)
  | CompletionRaised (str_e : string).

(** [content[:n] + "..." if len(content) > n else content]. *)
Definition ellipsize (n : nat) (content : string) : string :=
  if Z.of_nat n <? py_len content then str_take n content +:+ "..." else content.

(** [DiscordBot._build_context], on the list [get_history] returns. *)
Definition _build_context (history : list HistoryEntry) : string :=
  match history with
  | [] => ""
  | _ :: _ =>
      fold_left
        (fun context msg =>
           let role := if String.eqb (role msg) "user" then "Пользователь" else "AI" in
           context +:+ role +:+ ": " +:+ ellipsize 200 (content msg) +:+ NL)
        (PyList.slice (Some (-5)) None 1 history) ""
  end.

(** The text [show_history] sends for a non-empty history. *)
Definition history_text (history : list HistoryEntry) : string :=
  fold_left
    (fun history_text msg =>
       let role_icon := if String.eqb (role msg) "user" then "👤" else "🤖" in
       history_text +:+ role_icon +:+ " " +:+ ellipsize 100 (content msg) +:+ NL)
    (PyList.slice (Some (-10)) None 1 history)
    ("📝 **История сообщений:**" +:+ NL).

(** The [messages] argument of the completion call. *)
Definition completion_prompt (os_type history_context question : string)
    : list (string * string) :=
  [ ("system", "Ты помощник для выполнения команд в " +:+ os_type
                 +:+ ". Когда нужно выполнить команду, напиши её в формате: COMMAND: <команда>");
    ("system", "История: " +:+ history_context);
    ("user", question) ].

Definition ai_reply_message (text : string) : string :=
  "🤖 **Ответ AI:**" +:+ NL +:+ text.
Definition ai_error_message (str_e : string) : string :=
  "❌ Ошибка при обращении к AI: " +:+ str_e.

Section Bot.

Variable lower : string -> string.
Variable re_search : string -> string -> bool.
(** [hashlib.md5(data).digest()] read as a big-endian number. *)
Variable md5 : string -> N.
(** The operating system: [subprocess.run] is a transition of its state. *)
Variable OS : Type.
Variable subprocess_run : RunArgs -> OS -> RunOutcome * OS.
(** [str.strip()], [datetime.now().isoformat()] and
    [g4f.ChatCompletion.create_async(model, messages)]. *)
Variable strip : string -> string.
Variable now : OS -> string * OS.
Variable create_async : string -> list (string * string) -> OS -> CompletionOutcome * OS.

(** The bot object, the operating system and the log of what was done. *)
Record World := mkWorld {
  bot : DiscordBot;
  os : OS;
  log : list Event
}.

(** Handlers are state transformers on the world. *)
Definition M (A : Type) : Type := World -> A * World.

#[local] Instance M_ret : MRet M := fun A a w => (a, w).
#[local] Instance M_bind : MBind M :=
  fun A B k m w => let (a, w') := m w in k a w'.

Definition emit (e : Event) : M unit :=
  fun w => (tt, mkWorld (bot w) (os w) (log w ++ [e])).
Definition read_bot : M DiscordBot := fun w => (bot w, w).
Definition write_bot (b : DiscordBot) : M unit :=
  fun w => (tt, mkWorld b (os w) (log w)).
Definition call_subprocess (call : RunArgs) : M RunOutcome :=
  fun w => let (outcome, os') := subprocess_run call (os w) in
           (outcome, mkWorld (bot w) os' (log w)).

(** [await ctx.send(content)]. *)
Definition send (content : string) : M unit := emit (Send content).

(** [self.security_checker.check_command(command)]. *)
Definition classify (command : string) : M CheckResult :=
  self ← read_bot;
  emit (Classify command);;
  mret (check_command lower re_search (security_checker self) command).

(** [self.executor.execute_command(command)]. *)
Definition execute_command (command : string) : M ExecResult :=
  self ← read_bot;
  let call := run_call (executor self) command in
  emit (Run call);;
  outcome ← call_subprocess call;
  mret (run_result outcome).

Definition _execute_command_directly (command : string) : M unit :=
  send (executing_message command);;
  result ← execute_command command;
  send (render_result result).

(** [hashlib.md5(command.encode()).hexdigest()[:8]]. *)
Definition command_id_of (command : string) : string :=
  str_take 8 (hexdigest (md5 command)).

Definition _request_approval (command : string) (security_result : CheckResult)
    : M unit :=
  let command_id := command_id_of command in
  self ← read_bot;
  write_bot (set_pending_commands (<[command_id := command]> (pending_commands self)) self);;
  send (approval_prompt command command_id security_result).

Definition _execute_with_security_check (command : string) : M unit :=
  self ← read_bot;
  if get (cfg_max_command_length (config self)) 1000 <? py_len command
  then send too_long_message
  else
    security_result ← classify command;
    if safe security_result || get (cfg_auto_approve_safe (config self)) false
    then _execute_command_directly command
    else _request_approval command security_result.

(** [!exec <command>]: the handler the source names [execute_command],
    like the executor's method. *)
Definition exec_command (command : string) : M unit :=
  _execute_with_security_check command.

(** [!approve [command_id]]; [None] is the omitted argument. *)
Definition approve_command (command_id : option string) : M unit :=
  self ← read_bot;
  match command_id with
  | Some id =>
      if truthy id then
        match pending_commands self !! id with
        | Some command =>
            write_bot (set_pending_commands (delete id (pending_commands self)) self);;
            _execute_command_directly command
        | None => send not_found_message
        end
      else send not_found_message
  | None => send not_found_message
  end.

(** [self.history.add_message(role, content)], the clock read at the call. *)
Definition history_add_message (role content : string) : M unit :=
  fun w =>
    let (stamp, os') := now (os w) in
    (tt, mkWorld (set_history (add_message (history (bot w)) role content stamp) (bot w))
           os' (log w)).

Definition call_create_async (model : string) (prompt : list (string * string))
    : M CompletionOutcome :=
  fun w => let (outcome, os') := create_async model prompt (os w) in
           (outcome, mkWorld (bot w) os' (log w)).

(** The loop of [_handle_command_response] over the lines: the commands
    and the other lines, each in order. *)
Definition split_response (lines : list string) : list string * list string :=
  fold_left
    (fun '((commands, text_parts) : list string * list string) line =>
       if startswith (strip line) "COMMAND:"
       then ((commands ++ [strip (replace line "COMMAND:" "")])%list, text_parts)
       else (commands, (text_parts ++ [line])%list))
    lines ([], []).

Fixpoint for_each {A : Type} (body : A -> M unit) (items : list A) : M unit :=
  match items with
  | [] => mret tt
  | item :: items' => body item;; for_each body items'
  end.

Definition _handle_command_response (response : string) : M unit :=
  let lines := split response (ascii_of_nat 10) in
  let '(commands, text_parts) := split_response lines in
  match text_parts with
  | [] => mret tt
  | _ :: _ =>
      let text_response := strip (join NL text_parts) in
      if truthy text_response then send (ai_reply_message text_response) else mret tt
  end;;
  for_each _execute_with_security_check commands.

(** [!ask <question>].  Reading [self.config['os_type']] raises [KeyError]
    when the key is absent; the [except] clause reports it like a failed
    completion. *)
Definition ask_ai (question : string) : M unit :=
  send "🤔 Обрабатываю запрос...";;
  history_add_message "user" question;;
  self ← read_bot;
  let history_context := _build_context (get_history (history self)) in
  match cfg_os_type (config self) with
  | None => send (ai_error_message "'os_type'")
  | Some os_type =>
      let model := get (cfg_g4f_model (config self)) "gpt-4" in
      let prompt := completion_prompt os_type history_context question in
      emit (Complete model prompt);;
      outcome ← call_create_async model prompt;
      match outcome with
      | CompletionRaised str_e => send (ai_error_message str_e)
      | Responded response =>
          history_add_message "assistant" response;;
          if contains response "COMMAND:"
          then _handle_command_response response
          else send (ai_reply_message response)
      end
  end.

(** [!history]. *)
Definition show_history : M unit :=
  self ← read_bot;
  match get_history (history self) with
  | [] => send "📝 История сообщений пуста"
  | _ :: _ => send (history_text (get_history (history self)))
  end.

(** [!clear]. *)
Definition clear_history : M unit :=
  self ← read_bot;
  write_bot (set_history (clear (history self)) self);;
  send "🗑️ История сообщений очищена".

(** The commands the bot registers, with their arguments. *)
Inductive Command :=
  | Ask (question : string)
  | Exec (command : string)
  | Approve (command_id : option string)
  | History
  | Clear.

Definition handle (c : Command) : M unit :=
  match c with
  | Ask question => ask_ai question
  | Exec command => exec_command command
  | Approve command_id => approve_command command_id
  | History => show_history
  | Clear => clear_history
  end.

End Bot.

Arguments mkWorld {OS} _ _ _.
Arguments bot {OS} _.
Arguments os {OS} _.
Arguments log {OS} _.
Arguments send {OS} _ _.
Arguments emit {OS} _ _.
Arguments classify _ _ {OS} _ _.
Arguments execute_command {OS} _ _ _.
Arguments _execute_command_directly {OS} _ _ _.
Arguments _request_approval _ {OS} _ _ _.
Arguments _execute_with_security_check _ _ _ {OS} _ _ _.
Arguments exec_command _ _ _ {OS} _ _ _.
Arguments approve_command {OS} _ _ _.
Arguments history_add_message {OS} _ _ _ _.
Arguments _handle_command_response _ _ _ {OS} _ _ _ _.
Arguments ask_ai _ _ _ {OS} _ _ _ _ _ _.
Arguments show_history {OS} _.
Arguments clear_history {OS} _.
Arguments handle _ _ _ {OS} _ _ _ _ _ _.

(** ** Instances of the library functions, for evaluation *)

Module Impl.

(** *** [str.lower], on the ASCII letters *)

Definition lower_char (a : ascii) : ascii :=
  let n := N_of_ascii a in
  if (65 <=? n)%N && (n <=? 90)%N then ascii_of_N (n + 32) else a.

Fixpoint lower (s : string) : string :=
  match s with
  | EmptyString => EmptyString
  | String a s' => String (lower_char a) (lower s')
  end.

(** *** [str.strip], for the ASCII whitespace *)

Definition is_space (a : ascii) : bool :=
  let n := N_of_ascii a in
  ((9 <=? n)%N && (n <=? 13)%N) || ((28 <=? n)%N && (n <=? 32)%N).

Fixpoint lstrip (s : string) : string :=
  match s with
  | EmptyString => EmptyString
  | String a s' => if is_space a then lstrip s' else s
  end.

Fixpoint rstrip (s : string) : string :=
  match s with
  | EmptyString => EmptyString
  | String a s' =>
      match rstrip s' with
      | EmptyString => if is_space a then EmptyString else String a EmptyString
      | r => String a r
      end
  end.

Definition strip (s : string) : string := rstrip (lstrip s).

(** *** [re.search], for patterns that are a sequence of one-character
    matchers, each optionally starred *)

Inductive Atom :=
  | AChar (a : ascii)     (* the character itself *)
  | ASpace.               (* \s *)

Inductive CharClass :=
  | CAny                                     (* .  : anything but a newline *)
  | CSet (negated : bool) (items : list Atom)  (* [...] and [^...] *)
  | COne (item : Atom).

(** A matcher and whether a [*] follows it. *)
Definition Piece : Type := CharClass * bool.

Definition atom_match (t : Atom) (a : ascii) : bool :=
  match t with
  | AChar b => Ascii.eqb a b
  | ASpace => is_space a
  end.

Definition class_match (c : CharClass) (a : ascii) : bool :=
  match c with
  | CAny => negb (Ascii.eqb a (ascii_of_nat 10))
  | CSet negated items => xorb negated (existsb (fun t => atom_match t a) items)
  | COne t => atom_match t a
  end.

(** The character after a backslash. *)
Definition escaped (c : ascii) : Atom :=
  if Ascii.eqb c "s" then ASpace else AChar c.

(** The inside of a bracket expression, up to the closing bracket. *)
Fixpoint parse_set (s : string) (acc : list Atom) : option (list Atom * string) :=
  match s with
  | EmptyString => None
  | String c rest =>
      if Ascii.eqb c "]" then Some (rev acc, rest)
      else if Ascii.eqb c "\" then
        match rest with
        | EmptyString => None
        | String e rest' => parse_set rest' (escaped e :: acc)
        end
      else parse_set rest (AChar c :: acc)
  end.

Definition is_special (c : ascii) : bool :=
  existsb (Ascii.eqb c) (list_ascii_of_string "()|+?{}^$*").

Definition parse_class (s : string) : option (CharClass * string) :=
  match s with
  | EmptyString => None
  | String c rest =>
      if Ascii.eqb c "." then Some (CAny, rest)
      else if Ascii.eqb c "\" then
        match rest with
        | EmptyString => None
        | String e rest' => Some (COne (escaped e), rest')
        end
      else if Ascii.eqb c "[" then
        match rest with
        | String "^" rest' =>
            match parse_set rest' [] with
            | Some (items, rest'') => Some (CSet true items, rest'')
            | None => None
            end
        | _ =>
            match parse_set rest [] with
            | Some (items, rest'') => Some (CSet false items, rest'')
            | None => None
            end
        end
      else if is_special c then None
      else Some (COne (AChar c), rest)
  end.

Fixpoint parse (fuel : nat) (s : string) : option (list Piece) :=
  match s with
  | EmptyString => Some []
  | String _ _ =>
      match fuel with
      | O => None
      | S fuel' =>
          match parse_class s with
          | None => None
          | Some (c, rest) =>
              match rest with
              | String "*" rest' => cons (c, true) <$> parse fuel' rest'
              | _ => cons (c, false) <$> parse fuel' rest
              end
          end
      end
  end.

(** Does a prefix of the text match the pieces? *)
Fixpoint match_here (ps : list Piece) : string -> bool :=
  match ps with
  | [] => fun _ => true
  | (c, false) :: ps' =>
      fun s =>
        match s with
        | EmptyString => false
        | String a s' => class_match c a && match_here ps' s'
        end
  | (c, true) :: ps' =>
      fix star (s : string) : bool :=
        match_here ps' s ||
        match s with
        | EmptyString => false
        | String a s' => class_match c a && star s'
        end
  end.

Fixpoint search (ps : list Piece) (s : string) : bool :=
  match_here ps s ||
  match s with
  | EmptyString => false
  | String _ s' => search ps s'
  end.

(** A pattern outside the supported syntax matches nothing. *)
Definition re_search (pattern text : string) : bool :=
  match parse (String.length pattern) pattern with
  | Some ps => search ps text
  | None => false
  end.

(** *** [hashlib.md5] (RFC 1321), on 32-bit words kept as [N] *)

Definition w32 (x : N) : N := (x mod 4294967296)%N.

Definition rotl (x c : N) : N :=
  w32 (N.lor (N.shiftl x c) (N.shiftr x (32 - c))).

Definition not32 (x : N) : N := N.lxor x 4294967295.

Definition sines : list N :=
  [ 3614090360; 3905402710; 606105819; 3250441966;
    4118548399; 1200080426; 2821735955; 4249261313;
    1770035416; 2336552879; 4294925233; 2304563134;
    1804603682; 4254626195; 2792965006; 1236535329;
    4129170786; 3225465664; 643717713; 3921069994;
    3593408605; 38016083; 3634488961; 3889429448;
    568446438; 3275163606; 4107603335; 1163531501;
    2850285829; 4243563512; 1735328473; 2368359562;
    4294588738; 2272392833; 1839030562; 4259657740;
    2763975236; 1272893353; 4139469664; 3200236656;
    681279174; 3936430074; 3572445317; 76029189;
    3654602809; 3873151461; 530742520; 3299628645;
    4096336452; 1126891415; 2878612391; 4237533241;
    1700485571; 2399980690; 4293915773; 2240044497;
    1873313359; 4264355552; 2734768916; 1309151649;
    4149444226; 3174756917; 718787259; 3951481745 ]%N.

Definition shifts : list N :=
  [ 7; 12; 17; 22; 7; 12; 17; 22; 7; 12; 17; 22; 7; 12; 17; 22;
    5; 9; 14; 20; 5; 9; 14; 20; 5; 9; 14; 20; 5; 9; 14; 20;
    4; 11; 16; 23; 4; 11; 16; 23; 4; 11; 16; 23; 4; 11; 16; 23;
    6; 10; 15; 21; 6; 10; 15; 21; 6; 10; 15; 21; 6; 10; 15; 21 ]%N.

(** [n] bytes of [x], least significant first. *)
Fixpoint le_bytes (n : nat) (x : N) : list N :=
  match n with
  | O => []
  | S n' => (x mod 256)%N :: le_bytes n' (x / 256)%N
  end.

Definition of_le_bytes (bs : list N) : N :=
  fold_right (fun b acc => (b + 256 * acc)%N) 0%N bs.

Definition of_be_bytes (bs : list N) : N :=
  fold_left (fun acc b => (256 * acc + b)%N) bs 0%N.

Definition pad (msg : list N) : list N :=
  let len := N.of_nat (length msg) in
  let zeros := N.to_nat ((119 - len mod 64) mod 64)%N in
  msg ++ [128%N] ++ repeat 0%N zeros ++ le_bytes 8 (8 * len)%N.

(** Cut into groups of [size] elements. *)
Fixpoint chunks {A : Type} (fuel size : nat) (l : list A) : list (list A) :=
  match fuel, l with
  | O, _ | _, [] => []
  | S fuel', _ => take size l :: chunks fuel' size (drop size l)
  end.

Definition State : Type := N * N * N * N.

Definition round (m : list N) (st : State) (i : nat) : State :=
  let '(a, b, c, d) := st in
  let '(f, g) :=
    match (i / 16)%nat with
    | 0%nat => (N.lor (N.land b c) (N.land (not32 b) d), i)
    | 1%nat => (N.lor (N.land d b) (N.land (not32 d) c), ((5 * i + 1) mod 16)%nat)
    | 2%nat => (N.lxor (N.lxor b c) d, ((3 * i + 5) mod 16)%nat)
    | _ => (N.lxor c (N.lor b (not32 d)), ((7 * i) mod 16)%nat)
    end in
  let f := w32 (f + a + nth i sines 0 + nth g m 0)%N in
  (d, w32 (b + rotl f (nth i shifts 0))%N, b, c).

Definition compress (st : State) (block : list N) : State :=
  let m := map of_le_bytes (chunks 16 4 block) in
  let '(a0, b0, c0, d0) := st in
  let '(a, b, c, d) := fold_left (round m) (seq 0 64) st in
  (w32 (a0 + a), w32 (b0 + b), w32 (c0 + c), w32 (d0 + d))%N.

Definition initial : State :=
  (1732584193, 4023233417, 2562383102, 271733878)%N.

Definition digest_bytes (msg : list N) : list N :=
  let padded := pad msg in
  let '(a, b, c, d) :=
    fold_left compress (chunks (length padded) 64 padded) initial in
  le_bytes 4 a ++ le_bytes 4 b ++ le_bytes 4 c ++ le_bytes 4 d.

(** The digest of the bytes of [data], as a big-endian number. *)
Definition md5 (data : string) : N :=
  of_be_bytes (digest_bytes (map N_of_ascii (list_ascii_of_string data))).

End Impl.

(** ** Text as code points: UTF-8, and CPython's [str.lower] on ASCII
       and Greek letters *)

Module Unicode.

Definition between (lo hi n : N) : bool := (lo <=? n)%N && (n <=? hi)%N.

(** The payload of a continuation byte. *)
Definition low6 (n : N) : N := (n mod 64)%N.

(** Strict UTF-8 decoding (the well-formed byte sequences of the Unicode
    standard, table 3-7); [None] where [bytes.decode('utf-8')] raises
    [UnicodeDecodeError]. *)
Fixpoint utf8_decode (s : string) : option (list N) :=
  match s with
  | EmptyString => Some []
  | String b0 s1 =>
      let n0 := N_of_ascii b0 in
      if (n0 <? 128)%N then cons n0 <$> utf8_decode s1
      else
        match s1 with
        | EmptyString => None
        | String b1 s2 =>
            let n1 := N_of_ascii b1 in
            if between 194 223 n0 then
              if between 128 191 n1
              then cons ((n0 mod 32) * 64 + low6 n1)%N <$> utf8_decode s2
              else None
            else
              match s2 with
              | EmptyString => None
              | String b2 s3 =>
                  let n2 := N_of_ascii b2 in
                  if between 224 239 n0 then
                    if (if (n0 =? 224)%N then between 160 191 n1
                        else if (n0 =? 237)%N then between 128 159 n1
                        else between 128 191 n1)
                       && between 128 191 n2
                    then cons ((n0 mod 16) * 4096 + low6 n1 * 64 + low6 n2)%N
                           <$> utf8_decode s3
                    else None
                  else
                    match s3 with
                    | EmptyString => None
                    | String b3 s4 =>
                        let n3 := N_of_ascii b3 in
                        if between 240 244 n0
                           && (if (n0 =? 240)%N then between 144 191 n1
                               else if (n0 =? 244)%N then between 128 143 n1
                               else between 128 191 n1)
                           && between 128 191 n2 && between 128 191 n3
                        then cons ((n0 mod 8) * 262144 + low6 n1 * 4096
                                   + low6 n2 * 64 + low6 n3)%N
                               <$> utf8_decode s4
                        else None
                    end
              end
        end
  end.

Definition byte (n : N) : ascii := ascii_of_N n.

Definition utf8_encode_point (c : N) : string :=
  if (c <? 128)%N then String (byte c) EmptyString
  else if (c <? 2048)%N then
    String (byte (192 + c / 64)) (String (byte (128 + c mod 64)) EmptyString)
  else if (c <? 65536)%N then
    String (byte (224 + c / 4096))
      (String (byte (128 + (c / 64) mod 64)) (String (byte (128 + c mod 64)) EmptyString))
  else
    String (byte (240 + c / 262144))
      (String (byte (128 + (c / 4096) mod 64))
         (String (byte (128 + (c / 64) mod 64))
            (String (byte (128 + c mod 64)) EmptyString))).

Fixpoint utf8_encode (points : list N) : string :=
  match points with
  | [] => EmptyString
  | c :: points' => utf8_encode_point c +:+ utf8_encode points'
  end.

(** The letters with a case, among ASCII and the Greek letters
    U+0391..U+03A9 and U+03B1..U+03C9. *)
Definition cased (c : N) : bool :=
  between 65 90 c || between 97 122 c
  || (between 913 937 c && negb (c =? 930)%N) || between 945 969 c.

(** The case-ignorable characters of ASCII: ['], [.], [:], [^] and [`]. *)
Definition case_ignorable (c : N) : bool :=
  (c =? 39)%N || (c =? 46)%N || (c =? 58)%N || (c =? 94)%N || (c =? 96)%N.

(** Is the first character that is not case-ignorable a cased one? *)
Fixpoint next_is_cased (points : list N) : bool :=
  match points with
  | [] => false
  | c :: points' => if case_ignorable c then next_is_cased points' else cased c
  end.

(** A capital sigma is final when a cased letter comes before it and none
    after it, case-ignorable characters skipped on both sides.  [before] is
    the text before it, nearest character first. *)
Definition final_sigma (before after : list N) : bool :=
  next_is_cased before && negb (next_is_cased after).

Definition lower_point (c : N) : N :=
  if between 65 90 c then (c + 32)%N
  else if between 913 937 c && negb (c =? 930)%N then (c + 32)%N
  else c.

Fixpoint lower_points (before points : list N) : list N :=
  match points with
  | [] => []
  | c :: after =>
      (if (c =? 931)%N
       then (if final_sigma before after then 962 else 963)%N
       else lower_point c)
      :: lower_points (c :: before) after
  end.

(** [str.lower] as CPython computes it, for texts of ASCII characters and
    Greek letters; other texts are left as they are. *)
Definition lower (s : string) : string :=
  match utf8_decode s with
  | Some points =>
      if forallb (fun c => (c <? 128)%N || between 913 937 c || between 945 969 c) points
      then utf8_encode (lower_points [] points)
      else s
  | None => s
  end.

End Unicode.

(** ** A scripted environment, for evaluation *)

(** The outcomes the next [subprocess.run] and [create_async] calls will
    have, in order, and a clock that ticks at each reading. *)
Record ScriptedOS := mkScriptedOS {
  run_script : list RunOutcome;
  completion_script : list CompletionOutcome;
  ticks : N
}.

Definition scripted_run (call : RunArgs) (os : ScriptedOS) : RunOutcome * ScriptedOS :=
  match run_script os with
  | outcome :: script =>
      (outcome, mkScriptedOS script (completion_script os) (ticks os))
  | [] => (RaisedException "[Errno 2] No such file or directory", os)
  end.

Definition scripted_create_async (model : string) (prompt : list (string * string))
    (os : ScriptedOS) : CompletionOutcome * ScriptedOS :=
  match completion_script os with
  | outcome :: script => (outcome, mkScriptedOS (run_script os) script (ticks os))
  | [] => (CompletionRaised "No provider found", os)
  end.

Definition scripted_now (os : ScriptedOS) : string * ScriptedOS :=
  ("2026-01-01T00:00:" +:+ pretty (ticks os),
   mkScriptedOS (run_script os) (completion_script os) (ticks os + 1)).

(** The bot run on the scripted environment. *)
Definition scripted_handle (c : Command) (w : World ScriptedOS) : World ScriptedOS :=
  (handle Impl.lower Impl.re_search Impl.md5 scripted_run Impl.strip scripted_now
     scripted_create_async c w).2.

Definition scripted_world (config : Config) (os : ScriptedOS) : World ScriptedOS :=
  mkWorld (DiscordBot_init config) os [].

Definition DEFAULT_CONFIG : Config :=
  mkConfig (Some "") (Some "!") (Some "windows") (Some "gpt-4") (Some 50)
    (Some [ "rm -rf"; "del /f"; "format"; "fdisk"; "mkfs"; "dd if=";
            "shutdown"; "reboot"; "halt"; "poweroff"; "taskkill /f";
            "reg delete"; "netsh"; "iptables"; "chmod 777"; "chown";
            "wget"; "curl"; "powershell"; "cmd"; "bash"; "sh" ])
    (Some false) (Some 1000).

(** * Properties *)

(** ** Substring containment *)

Lemma startswith_iff (s p : string) :
  startswith s p = true <-> exists post, s = p +:+ post.
Proof.
  revert s. induction p as [|b p IH]; intros s; simpl.
  - split; [intros _; exists s; reflexivity | reflexivity].
  - destruct s as [|a s]; simpl.
    + split; [discriminate | intros [post H]; discriminate].
    + rewrite andb_true_iff, IH. split.
      * intros [Hab [post ->]]. apply Ascii.eqb_eq in Hab. subst. eauto.
      * intros [post H]. injection H as -> ->. split; [apply Ascii.eqb_refl | eauto].
Qed.

Lemma contains_iff (hay needle : string) :
  contains hay needle = true <-> exists pre post, hay = pre +:+ needle +:+ post.
Proof.
  induction hay as [|a hay IH]; simpl.
  - rewrite orb_false_r, startswith_iff. split.
    + intros [post H]. exists "", post. exact H.
    + intros [pre [post H]]. destruct pre; [eauto | discriminate].
  - rewrite orb_true_iff, startswith_iff, IH. split.
    + intros [[post H] | [pre [post H]]].
      * exists "", post. exact H.
      * exists (String a pre), post. rewrite H. reflexivity.
    + intros [pre [post H]]. destruct pre as [|b pre]; simpl in H.
      * left. eauto.
      * right. injection H as -> ->. eauto.
Qed.

(** ** The classifier in closed form *)

Section ClassifierFacts.

Variable lower : string -> string.
Variable re_search : string -> string -> bool.

(** The configured terms the lowered text contains, in list order. *)
Definition matched_terms (terms : list string) (command : string) : list string :=
  List.filter (fun term => contains (lower command) (lower term)) terms.

(** The patterns found in the text, in list order. *)
Definition matched_patterns (patterns : list string) (command : string) : list string :=
  List.filter (fun pattern => re_search pattern command) patterns.

Definition is_nil {A : Type} (l : list A) : bool :=
  match l with [] => true | _ :: _ => false end.

(** low for 0, medium for 1 or 2, high above. *)
Definition risk_of_count (n : nat) : RiskLevel :=
  match n with
  | 0%nat => low
  | 1%nat | 2%nat => medium
  | _ => high
  end.

Lemma fold_check_dangerous (command_lower : string) (terms : list string) (r : CheckResult) :
  fold_left (check_dangerous lower command_lower) terms r =
  let m := List.filter (fun term => contains command_lower (lower term)) terms in
  mkCheckResult (safe r && is_nil m) (warnings r ++ map dangerous_warning m)
    (dangerous_parts r ++ m) (risk_level r).
Proof.
  revert r. induction terms as [|t terms IH]; intros [s w d l]; simpl.
  - rewrite andb_true_r, !app_nil_r. reflexivity.
  - rewrite IH. unfold check_dangerous.
    destruct (contains command_lower (lower t)); simpl.
    + rewrite andb_false_r, <- !app_assoc. reflexivity.
    + reflexivity.
Qed.

Lemma fold_check_pattern (command : string) (patterns : list string) (r : CheckResult) :
  fold_left (check_pattern re_search command) patterns r =
  let m := List.filter (fun pattern => re_search pattern command) patterns in
  mkCheckResult (safe r && is_nil m) (warnings r ++ map pattern_warning m)
    (dangerous_parts r) (risk_level r).
Proof.
  revert r. induction patterns as [|p patterns IH]; intros [s w d l]; simpl.
  - rewrite andb_true_r, !app_nil_r. reflexivity.
  - rewrite IH. unfold check_pattern.
    destruct (re_search p command); simpl.
    + rewrite andb_false_r, <- !app_assoc. reflexivity.
    + reflexivity.
Qed.

Lemma assign_risk_level_low (s : bool) (w d : list string) :
  assign_risk_level (mkCheckResult s w d low) =
  mkCheckResult s w d (risk_of_count (length d)).
Proof.
  unfold assign_risk_level; simpl.
  destruct d as [|? [|? [|? ?]]]; reflexivity.
Qed.

(** The result as a function of the text, the configured terms and the
    configured patterns. *)
Definition verdict (terms patterns : list string) (command : string) : CheckResult :=
  let terms := matched_terms terms command in
  let patterns := matched_patterns patterns command in
  mkCheckResult (is_nil terms && is_nil patterns)
    (map dangerous_warning terms ++ map pattern_warning patterns)
    terms (risk_of_count (length terms)).

Lemma check_command_closed_form (self : SecurityChecker) (command : string) :
  check_command lower re_search self command
  = verdict (dangerous_commands self) (suspicious_patterns self) command.
Proof.
  unfold check_command, verdict.
  rewrite fold_check_dangerous, fold_check_pattern. simpl.
  apply assign_risk_level_low.
Qed.

End ClassifierFacts.

Lemma is_nil_filter_false {A : Type} (f : A -> bool) (l : list A) :
  is_nil (List.filter f l) = false <-> exists x, In x l /\ f x = true.
Proof.
  split.
  - destruct (List.filter f l) as [|x m] eqn:E; [discriminate|]. intros _.
    exists x. apply filter_In. rewrite E. left. reflexivity.
  - intros [x Hx]. apply filter_In in Hx.
    destruct (List.filter f l); [destruct Hx | reflexivity].
Qed.

Lemma is_nil_filter_true {A : Type} (f : A -> bool) (l : list A) :
  is_nil (List.filter f l) = true <-> forall x, In x l -> f x = false.
Proof.
  split.
  - intros H x Hx. destruct (f x) eqn:E; [|reflexivity].
    assert (is_nil (List.filter f l) = false) as Hn
      by (apply is_nil_filter_false; eauto).
    congruence.
  - intros H. destruct (is_nil (List.filter f l)) eqn:E; [reflexivity|].
    apply is_nil_filter_false in E as [x [Hx Hf]]. rewrite (H x Hx) in Hf. discriminate.
Qed.

Section ClassifierProperties.

Variable lower : string -> string.
Variable re_search : string -> string -> bool.

(** The test of the code: the lowered term is a substring of the lowered
    text.  With CPython's [str.lower] this is not containment in any case:
    see [lowered_test_misses_a_contained_term]. *)
Definition lowered_contains (term command : string) : Prop :=
  exists pre post, lower command = pre +:+ lower term +:+ post.

Lemma lowered_contains_iff (term command : string) :
  contains (lower command) (lower term) = true <-> lowered_contains term command.
Proof. apply contains_iff. Qed.


(** The number of configured dangerous terms the text contains. *)
Definition dangerous_match_count (self : SecurityChecker) (command : string) : nat :=
  length (matched_terms lower (dangerous_commands self) command).

(** C4.  The risk level is a function of the number of dangerous-term
    matches alone: low for 0, medium for 1 or 2, high above 2, whatever the
    suspicious patterns are and whatever they match; so a text that matches
    a pattern and no term is unsafe with risk level low. *)
Theorem risk_level_from_dangerous_count (self : SecurityChecker) (command : string) :
  let r := check_command lower re_search self command in
  let n := dangerous_match_count self command in
  length (dangerous_parts r) = n
  /\ risk_level r = risk_of_count n
  /\ (n = 0%nat -> risk_level r = low)
  /\ ((1 <= n <= 2)%nat -> risk_level r = medium)
  /\ ((2 < n)%nat -> risk_level r = high)
  /\ (forall (re_search' : string -> string -> bool) (patterns' : list string),
        risk_level (check_command lower re_search'
                      (mkSecurityChecker (dangerous_commands self) patterns') command)
        = risk_level r)
  /\ (n = 0%nat ->
      (exists pattern, In pattern (suspicious_patterns self) /\
                       re_search pattern command = true) ->
      safe r = false /\ risk_level r = low).
Proof.
  cbv zeta. rewrite check_command_closed_form. unfold verdict. cbv zeta. simpl.
  unfold dangerous_match_count.
  set (n := length (matched_terms lower (dangerous_commands self) command)).
  split; [reflexivity|]. split; [reflexivity|].
  split; [intros ->; reflexivity|].
  split; [intros H; destruct n as [|[|[|n]]]; simpl; try reflexivity; lia|].
  split; [intros H; destruct n as [|[|[|n]]]; simpl; try reflexivity; lia|].
  split.
  - intros re_search' patterns'. rewrite check_command_closed_form. reflexivity.
  - intros Hn Hp. split.
    + apply andb_false_iff. right. apply is_nil_filter_false. exact Hp.
    + rewrite Hn. reflexivity.
Qed.

End ClassifierProperties.


(** The pipe example: no dangerous term configured, one pattern found. *)
Example check_command_pipe_example :
  check_command Impl.lower Impl.re_search (SecurityChecker_init []) "echo hello | cat"
  = mkCheckResult false [pattern_warning "[\|&;]"] [] low.
Proof. vm_compute. reflexivity. Qed.

(** One dangerous term, in another case than configured. *)
Example check_command_term_example :
  check_command Impl.lower Impl.re_search (SecurityChecker_init ["rm -rf"])
    "please RM -rf /tmp"
  = mkCheckResult false [dangerous_warning "rm -rf"] ["rm -rf"] medium.
Proof. vm_compute. reflexivity. Qed.

(** ** Slices *)

Section SliceFacts.
Context {A : Type}.
Implicit Types l : list A.

Lemma every_one l : PyList.every 1 0 l = l.
Proof. induction l as [|x l IH]; simpl; [reflexivity | rewrite IH; reflexivity]. Qed.

(** The element at position [i] of the selection sits [skip + i * step]
    places into the list. *)
Lemma every_lookup (step : nat) l :
  (0 < step)%nat ->
  forall skip i, PyList.every step skip l !! i = l !! (skip + i * step)%nat.
Proof.
  intros Hstep. induction l as [|x l IH]; intros skip i; simpl.
  - rewrite !lookup_nil. reflexivity.
  - destruct skip as [|k].
    + destruct i as [|j]; simpl; [reflexivity|].
      rewrite IH. destruct step as [|s]; [lia|]. simpl.
      f_equal.
    + simpl. apply IH.
Qed.

(** The selection has [ceil((len - skip) / step)] elements. *)
Lemma every_length (step : nat) l :
  (0 < step)%nat ->
  forall skip, (skip < step)%nat ->
  length (PyList.every step skip l) = ((length l + (step - 1 - skip)) / step)%nat.
Proof.
  intros Hstep. induction l as [|x l IH]; intros skip Hskip; simpl.
  - symmetry. apply Nat.div_small. lia.
  - destruct skip as [|k].
    + rewrite length_cons, IH by lia.
      replace (step - 1 - Nat.pred step)%nat with 0%nat by lia.
      replace (S (length l + (step - 1 - 0)))%nat with (length l + 0 + 1 * step)%nat by lia.
      rewrite Nat.div_add by lia. lia.
    + rewrite IH by lia. f_equal. lia.
Qed.

(** [l[-k:]] is the last [k] elements, or all of a shorter list. *)
Lemma slice_last (k : nat) l :
  (0 < k)%nat ->
  PyList.slice (Some (- Z.of_nat k)) None 1 l = drop (length l - k) l.
Proof.
  intros Hk. unfold PyList.slice, PyList.slice_bound, PyList.adjust_index.
  destruct (Z.ltb_spec (- Z.of_nat k) 0); [|lia].
  change (Pos.to_nat 1) with 1%nat. rewrite every_one.
  replace (Z.to_nat (Z.max 0 (- Z.of_nat k + Z.of_nat (length l))))
    with (length l - k)%nat by lia.
  apply take_ge. rewrite length_drop. lia.
Qed.

(** [l[:-k:step]] selects from everything before the last [k]. *)
Lemma slice_before_last (k : nat) (step : positive) l :
  (0 < k)%nat ->
  PyList.slice None (Some (- Z.of_nat k)) step l
  = PyList.every (Pos.to_nat step) 0 (take (length l - k) l).
Proof.
  intros Hk. unfold PyList.slice, PyList.slice_bound, PyList.adjust_index.
  destruct (Z.ltb_spec (- Z.of_nat k) 0); [|lia].
  rewrite drop_0. f_equal. f_equal. lia.
Qed.

End SliceFacts.

(** ** The conversation history *)

Definition count (self : MessageHistory) : Z := Z.of_nat (length (messages self)).

(** The appends of a sequence of [(role, content, now)] triples. *)
Definition add_messages (self : MessageHistory) (entries : list (string * string * string))
    : MessageHistory :=
  fold_left (fun self '(role, content, now) => add_message self role content now)
    entries self.

(** [k] entries with distinct contents. *)
Definition numbered (k : nat) : list (string * string * string) :=
  map (fun i => ("user", pretty i, "2026-01-01T00:00:00")) (seq 0 k).

Lemma _compress_history_messages (self : MessageHistory) :
  limit self < count self ->
  messages (_compress_history self)
  = (PyList.every 5 0 (take (length (messages self) - 20) (messages self))
     ++ drop (length (messages self) - 20) (messages self))%list.
Proof.
  intros H. unfold _compress_history, count in *.
  destruct (Z.ltb_spec (limit self) (Z.of_nat (length (messages self)))); [|lia].
  simpl. change (-20) with (- Z.of_nat 20).
  rewrite slice_last, slice_before_last by lia. reflexivity.
Qed.

Lemma add_message_limit (self : MessageHistory) (role content now : string) :
  limit (add_message self role content now) = limit self.
Proof.
  unfold add_message, _compress_history. simpl.
  destruct (_ <? _); reflexivity.
Qed.

Lemma add_message_within (self : MessageHistory) (role content now : string) :
  count self + 1 <= limit self ->
  messages (add_message self role content now)
  = (messages self ++ [mkHistoryEntry role content now])%list.
Proof.
  intros H. unfold add_message, count in *. simpl.
  rewrite length_app. simpl.
  destruct (Z.ltb_spec (limit self) (Z.of_nat (length (messages self) + 1))); [lia|].
  reflexivity.
Qed.

Lemma add_message_over (self : MessageHistory) (role content now : string) :
  limit self < count self + 1 ->
  let appended := (messages self ++ [mkHistoryEntry role content now])%list in
  messages (add_message self role content now)
  = (PyList.every 5 0 (take (length appended - 20) appended)
     ++ drop (length appended - 20) appended)%list.
Proof.
  intros H appended. unfold add_message, count in *. simpl.
  fold appended.
  assert (Z.of_nat (length appended) = Z.of_nat (length (messages self)) + 1) as Hlen
    by (unfold appended; rewrite length_app; simpl; lia).
  destruct (Z.ltb_spec (limit self) (Z.of_nat (length appended))); [|lia].
  apply (_compress_history_messages (mkMessageHistory (limit self) appended)).
  unfold count. simpl. lia.
Qed.

(** C8.  When an append makes the count exceed the limit, the new entry
    list is: from the entries preceding the most recent 20, every 5th one
    starting with the oldest, in order; then the most recent 20 (all of
    them when there are fewer) as they were. *)
Theorem compaction_keeps_stride_5_then_recent_20
    (self : MessageHistory) (role content now : string) :
  let appended := (messages self ++ [mkHistoryEntry role content now])%list in
  let n := length appended in
  limit self < Z.of_nat n ->
  let older := take (n - 20) appended in
  let recent := drop (n - 20) appended in
  exists kept,
    messages (add_message self role content now) = (kept ++ recent)%list
    /\ length recent = Nat.min 20 n
    /\ length kept = ((length older + 4) / 5)%nat
    /\ (forall i, (i < length kept)%nat -> kept !! i = older !! (5 * i)%nat)
    /\ (forall i, (i < length recent)%nat -> recent !! i = appended !! (n - 20 + i)%nat).
Proof.
  intros appended n Hover older recent.
  exists (PyList.every 5 0 older).
  split; [|split; [|split; [|split]]].
  - apply add_message_over. unfold count.
    unfold n, appended in Hover. rewrite length_app in Hover. simpl in Hover. lia.
  - unfold recent. rewrite length_drop. fold n. lia.
  - rewrite every_length by lia. reflexivity.
  - intros i _. rewrite every_lookup by lia. f_equal. lia.
  - intros i _. unfold recent. rewrite lookup_drop. reflexivity.
Qed.

Lemma compaction_keeps_stride_5_then_recent_20_witness :
  let self := add_messages (MessageHistory_init 30) (numbered 30) in
  limit self
  < Z.of_nat (length (messages self ++ [mkHistoryEntry "assistant" "ok" "t"])%list)
  /\ exists kept,
       messages (add_message self "assistant" "ok" "t")
       = (kept ++ drop (31 - 20)
                    (messages self ++ [mkHistoryEntry "assistant" "ok" "t"]))%list
       /\ length kept = 3%nat.
Proof.
  cbv zeta. split; [vm_compute; reflexivity|].
  destruct (compaction_keeps_stride_5_then_recent_20
              (add_messages (MessageHistory_init 30) (numbered 30)) "assistant" "ok" "t")
    as [kept [Heq [_ [Hlen _]]]].
  - vm_compute. reflexivity.
  - exists kept. split; [exact Heq | exact Hlen].
Defined.

(** One append keeps a history within a limit of at least 21. *)
Lemma add_message_bound (self : MessageHistory) (role content now : string) :
  21 <= limit self ->
  count self <= limit self ->
  count (add_message self role content now) <= limit self.
Proof.
  intros Hlimit Hcount. unfold count in *.
  destruct (Z_le_gt_dec (Z.of_nat (length (messages self)) + 1) (limit self)) as [Hfit|Hover].
  - rewrite add_message_within by (unfold count; lia).
    rewrite length_app. simpl. lia.
  - rewrite add_message_over by (unfold count; lia). cbv zeta.
    set (appended := (messages self ++ [mkHistoryEntry role content now])%list).
    assert (length appended = S (length (messages self))) as Hlen
      by (unfold appended; rewrite length_app, Nat.add_comm; reflexivity).
    rewrite length_app, every_length, length_take, length_drop, Hlen by lia.
    assert (length (messages self) = Z.to_nat (limit self)) as -> by lia.
    set (m := Z.to_nat (limit self)) in *.
    assert (21 <= m)%nat as Hm by lia.
    replace (limit self) with (Z.of_nat m) by lia.
    replace ((S m - 20) `min` S m + (5 - 1 - 0))%nat with (m - 15)%nat by lia.
    pose proof (Nat.div_mod_eq (m - 15) 5) as Hdiv.
    pose proof (Nat.mod_upper_bound (m - 15) 5 ltac:(lia)) as Hmod.
    lia.
Qed.

(** C7, as stated, fails: with limit 20 and 20 entries the next append
    exceeds the limit, and the compaction it triggers keeps the most recent
    20 and the one older entry, leaving 21. *)
Lemma history_bound_fails_at_limit_20 :
  let before := add_messages (MessageHistory_init 20) (numbered 20) in
  let after := add_message before "user" "20" "2026-01-01T00:00:00" in
  limit before = 20 /\ count before = 20
  /\ limit after = 20 /\ count after = 21 /\ ~ count after <= limit after.
Proof. vm_compute. repeat split. intros H. apply H. reflexivity. Qed.

(** C7, amended.  For a limit of at least 21 and a history within its
    limit, the count is within the limit after each append of any sequence
    of appends. *)
Theorem history_bound_restored_from_limit_21
    (self : MessageHistory) (entries : list (string * string * string)) (k : nat) :
  21 <= limit self ->
  count self <= limit self ->
  let after := add_messages self (take k entries) in
  limit after = limit self /\ count after <= limit after.
Proof.
  intros Hlimit Hcount. cbv zeta. unfold add_messages.
  generalize (take k entries). clear k entries. intros entries.
  revert self Hlimit Hcount.
  induction entries as [|[[role content] now] entries IH]; intros self Hlimit Hcount; simpl.
  - split; [reflexivity | assumption].
  - destruct (IH (add_message self role content now)) as [Hl Hc].
    + rewrite add_message_limit. assumption.
    + rewrite add_message_limit. apply add_message_bound; assumption.
    + rewrite add_message_limit in Hl. rewrite Hl in *. split; [reflexivity | assumption].
Qed.

Lemma history_bound_restored_from_limit_21_witness :
  21 <= limit (MessageHistory_init 21)
  /\ count (MessageHistory_init 21) <= limit (MessageHistory_init 21)
  /\ count (add_messages (MessageHistory_init 21) (take 40 (numbered 40))) <= 21.
Proof.
  split; [vm_compute; discriminate|].
  split; [vm_compute; discriminate|].
  destruct (history_bound_restored_from_limit_21 (MessageHistory_init 21) (numbered 40) 40)
    as [Hl Hc].
  - vm_compute. discriminate.
  - vm_compute. discriminate.
  - rewrite Hl in Hc. exact Hc.
Defined.

(** ** The handlers, step by step *)

Section BotFacts.

Variable lower : string -> string.
Variable re_search : string -> string -> bool.
Variable md5 : string -> N.
Variable OS : Type.
Variable subprocess_run : RunArgs -> OS -> RunOutcome * OS.

Implicit Types (w : World OS) (command : string).

(** The world with [events] added to its log. *)
Definition logged w (events : list Event) : World OS :=
  mkWorld (bot w) (os w) (log w ++ events).

(** The [subprocess.run] calls of a log, in order. *)
Definition runs (events : list Event) : list RunArgs :=
  omap (fun e => match e with Run call => Some call | _ => None end) events.

(** The commands a log shows classified, in order. *)
Definition classified (events : list Event) : list string :=
  omap (fun e => match e with Classify command => Some command | _ => None end) events.

Lemma send_eq (content : string) w :
  send content w = (tt, logged w [Send content]).
Proof. reflexivity. Qed.

Lemma classify_eq command w :
  classify lower re_search command w
  = (check_command lower re_search (security_checker (bot w)) command,
     logged w [Classify command]).
Proof. reflexivity. Qed.

Lemma execute_command_eq command w :
  let call := run_call (executor (bot w)) command in
  execute_command subprocess_run command w
  = (run_result (subprocess_run call (os w)).1,
     mkWorld (bot w) (subprocess_run call (os w)).2 (log w ++ [Run call])).
Proof.
  cbv zeta. unfold execute_command, call_subprocess, emit, read_bot.
  unfold mbind, M_bind, mret, M_ret. simpl.
  destruct (subprocess_run _ _). reflexivity.
Qed.

Lemma _execute_command_directly_eq command w :
  let call := run_call (executor (bot w)) command in
  _execute_command_directly subprocess_run command w
  = (tt, mkWorld (bot w) (subprocess_run call (os w)).2
           (log w ++ [Send (executing_message command); Run call;
                      Send (render_result (run_result (subprocess_run call (os w)).1))])).
Proof.
  cbv zeta. unfold _execute_command_directly.
  unfold mbind, M_bind at 1 2. rewrite send_eq, execute_command_eq. simpl.
  unfold send, emit. simpl. rewrite <- !app_assoc. reflexivity.
Qed.

Lemma _request_approval_eq command (security_result : CheckResult) w :
  let command_id := command_id_of md5 command in
  _request_approval md5 command security_result w
  = (tt, mkWorld
           (set_pending_commands (<[command_id := command]> (pending_commands (bot w)))
              (bot w))
           (os w)
           (log w ++ [Send (approval_prompt command command_id security_result)])).
Proof. reflexivity. Qed.

Lemma _execute_with_security_check_eq command w :
  _execute_with_security_check lower re_search md5 subprocess_run command w
  = if get (cfg_max_command_length (config (bot w))) 1000 <? py_len command
    then send too_long_message w
    else
      let security_result :=
        check_command lower re_search (security_checker (bot w)) command in
      if safe security_result || get (cfg_auto_approve_safe (config (bot w))) false
      then _execute_command_directly subprocess_run command (logged w [Classify command])
      else _request_approval md5 command security_result (logged w [Classify command]).
Proof.
  unfold _execute_with_security_check, read_bot.
  unfold mbind, M_bind at 1. 
  destruct (_ <? _); [reflexivity|].
  unfold mbind, M_bind at 1. rewrite classify_eq. cbv zeta.
  destruct (_ || _); reflexivity.
Qed.

End BotFacts.

Arguments logged {OS} _ _.

Lemma hex_digit_not_continuation (d : N) :
  (d < 16)%N -> is_continuation (hex_digit d) = false.
Proof.
  intros H. unfold hex_digit.
  assert (d = 0 \/ d = 1 \/ d = 2 \/ d = 3 \/ d = 4 \/ d = 5 \/ d = 6 \/ d = 7 \/
          d = 8 \/ d = 9 \/ d = 10 \/ d = 11 \/ d = 12 \/ d = 13 \/ d = 14 \/ d = 15)%N
    as Hd by lia.
  repeat (destruct Hd as [-> | Hd]; [reflexivity|]). subst. reflexivity.
Qed.

Lemma str_take_hex_fixed (n width : nat) (x : N) :
  (n <= width)%nat ->
  String.length (str_take n (hex_fixed width x)) = n.
Proof.
  revert n. induction width as [|w IH]; intros n Hn.
  - assert (n = 0%nat) as -> by lia. reflexivity.
  - cbn [hex_fixed str_take].
    rewrite hex_digit_not_continuation by (apply N.mod_upper_bound; lia).
    destruct n as [|n]; [reflexivity|]. cbn [String.length]. rewrite IH by lia. reflexivity.
Qed.

Section LedgerFacts.

Variable md5 : string -> N.

(** A ticket id has 8 characters, so it is never an empty (falsy) string. *)
Lemma command_id_of_length (command : string) :
  String.length (command_id_of md5 command) = 8%nat.
Proof. apply str_take_hex_fixed. lia. Qed.

Lemma command_id_of_truthy (command : string) :
  truthy (command_id_of md5 command) = true.
Proof.
  pose proof (command_id_of_length command) as H.
  destruct (command_id_of md5 command); [discriminate | reflexivity].
Qed.

End LedgerFacts.

Example command_id_of_example :
  command_id_of Impl.md5 "echo hello | cat" = "4a75baba".
Proof. vm_compute. reflexivity. Qed.

(** ** The security check *)

Section SecurityCheckProperties.

Variable lower : string -> string.
Variable re_search : string -> string -> bool.
Variable md5 : string -> N.
Variable OS : Type.
Variable subprocess_run : RunArgs -> OS -> RunOutcome * OS.

Implicit Types (w : World OS) (command : string).

Lemma runs_app (l l' : list Event) : runs (l ++ l') = (runs l ++ runs l')%list.
Proof. apply omap_app. Qed.

Lemma classified_app (l l' : list Event) :
  classified (l ++ l') = (classified l ++ classified l')%list.
Proof. apply omap_app. Qed.

Lemma app_singleton_neq {A : Type} (l : list A) (x : A) : (l ++ [x])%list <> l.
Proof.
  intros H. apply (f_equal length) in H. rewrite length_app in H. simpl in H. lia.
Qed.

(** C1.  For a command within the maximum length: when the verdict is
    unsafe and auto-approval is off, the command is stored under its ticket
    id, the prompt is sent and nothing is run; in every other case the
    command is run and the ledger is left as it was.  So a ticket stored
    with no run happens exactly for an unsafe verdict with auto-approval
    off. *)
Theorem security_check_parks_iff_unsafe_and_not_auto command w :
  py_len command <= get (cfg_max_command_length (config (bot w))) 1000 ->
  let verdict := check_command lower re_search (security_checker (bot w)) command in
  let auto := get (cfg_auto_approve_safe (config (bot w))) false in
  let command_id := command_id_of md5 command in
  let call := run_call (executor (bot w)) command in
  let w' := (_execute_with_security_check lower re_search md5 subprocess_run command w).2 in
  (safe verdict = false /\ auto = false ->
     w' = mkWorld
            (set_pending_commands (<[command_id := command]> (pending_commands (bot w)))
               (bot w))
            (os w)
            (log w ++ [Classify command;
                       Send (approval_prompt command command_id verdict)]))
  /\ (~ (safe verdict = false /\ auto = false) ->
        w' = mkWorld (bot w) (subprocess_run call (os w)).2
               (log w ++ [Classify command; Send (executing_message command); Run call;
                          Send (render_result
                                  (run_result (subprocess_run call (os w)).1))]))
  /\ ((pending_commands (bot w') = <[command_id := command]> (pending_commands (bot w))
       /\ runs (log w') = runs (log w))
      <-> (safe verdict = false /\ auto = false)).
Proof.
  intros Hlen verdict auto command_id call w'. subst w'.
  rewrite _execute_with_security_check_eq.
  destruct (Z.ltb_spec (get (cfg_max_command_length (config (bot w))) 1000)
              (py_len command)) as [Hlong|_]; [lia|].
  cbv zeta. fold verdict auto.
  destruct (safe verdict) eqn:Hsafe, auto eqn:Hauto; simpl orb; cbv iota.
  1-3: rewrite _execute_command_directly_eq; cbv zeta; simpl;
       rewrite <- !app_assoc; simpl;
       (split; [intros [? ?]; discriminate|]);
       (split; [intros _; reflexivity|]);
       (split; [|intros [? ?]; discriminate]);
       intros [_ Hruns]; rewrite !runs_app in Hruns; simpl in Hruns;
       destruct (app_singleton_neq _ _ Hruns).
  rewrite _request_approval_eq. cbv zeta. simpl. rewrite <- !app_assoc. simpl.
  split; [intros _; reflexivity|].
  split; [intros H; destruct H; split; reflexivity|].
  split; [intros _; split; reflexivity|].
  intros _. split; [reflexivity|].
  rewrite !runs_app. simpl. rewrite app_nil_r. reflexivity.
Qed.

(** C5.  A command longer than the maximum is answered with the "too
    long" message and nothing else: it is not classified, nothing is run,
    and the bot, with its ledger, and the operating system stay as they
    were. *)
Theorem too_long_command_rejected_before_classification command w :
  get (cfg_max_command_length (config (bot w))) 1000 < py_len command ->
  let w' := (_execute_with_security_check lower re_search md5 subprocess_run command w).2 in
  w' = logged w [Send too_long_message]
  /\ classified (log w') = classified (log w)
  /\ runs (log w') = runs (log w)
  /\ bot w' = bot w
  /\ pending_commands (bot w') = pending_commands (bot w)
  /\ os w' = os w.
Proof.
  intros Hlong w'. subst w'.
  rewrite _execute_with_security_check_eq.
  destruct (Z.ltb_spec (get (cfg_max_command_length (config (bot w))) 1000)
              (py_len command)) as [_|Hfit]; [|lia].
  rewrite send_eq. unfold logged. simpl.
  rewrite classified_app, runs_app. simpl. rewrite !app_nil_r.
  repeat split.
Qed.

End SecurityCheckProperties.

Lemma security_check_parks_iff_unsafe_and_not_auto_witness :
  let w := scripted_world DEFAULT_CONFIG (mkScriptedOS [] [] 0) in
  let command := "echo hello | cat" in
  py_len command <= get (cfg_max_command_length (config (bot w))) 1000
  /\ pending_commands
       (bot (_execute_with_security_check Impl.lower Impl.re_search Impl.md5
               scripted_run command w).2) !! "4a75baba"
     = Some command.
Proof.
  cbv zeta. split; [vm_compute; discriminate|].
  destruct (security_check_parks_iff_unsafe_and_not_auto Impl.lower Impl.re_search Impl.md5
              ScriptedOS scripted_run "echo hello | cat"
              (scripted_world DEFAULT_CONFIG (mkScriptedOS [] [] 0)))
    as [Hpark _].
  - vm_compute. discriminate.
  - rewrite Hpark by (split; vm_compute; reflexivity).
    vm_compute. reflexivity.
Defined.

Lemma too_long_command_rejected_before_classification_witness :
  let config := mkConfig None None None None None None None (Some 10) in
  let w := scripted_world config (mkScriptedOS [] [] 0) in
  let command := "echo hello | cat" in
  get (cfg_max_command_length (config)) 1000 < py_len command
  /\ (_execute_with_security_check Impl.lower Impl.re_search Impl.md5
        scripted_run command w).2
     = logged w [Send too_long_message].
Proof.
  cbv zeta. split; [vm_compute; reflexivity|].
  apply (too_long_command_rejected_before_classification Impl.lower Impl.re_search
           Impl.md5 ScriptedOS scripted_run).
  vm_compute. reflexivity.
Defined.

(** ** The runner *)

(** How the command itself ends, before [subprocess.run] makes text of
    what it wrote. *)
Inductive ProcessEnd :=
  | Exited (returncode : Z) (stdout_bytes stderr_bytes : string)
  | Expired                       (* not finished when the timeout elapsed *)
  | NotLaunched (str_e : string). (* the shell could not be started *)

Section TextMode.

(** Text-mode decoding of captured bytes: the text, or [str(e)] of the
    [UnicodeDecodeError] it raises. *)
Variable decode : string -> string + string.
Variable OS : Type.
(** The operating system running the command of a call to its end. *)
Variable spawn : RunArgs -> OS -> ProcessEnd * OS.

(** What [subprocess.run(..., capture_output=True, text=True, timeout=...)]
    makes of the end of the command: stdout is decoded, then stderr. *)
Definition run_outcome (ended : ProcessEnd) : RunOutcome :=
  match ended with
  | Exited returncode stdout_bytes stderr_bytes =>
      match decode stdout_bytes with
      | inr str_e => RaisedException str_e
      | inl stdout =>
          match decode stderr_bytes with
          | inr str_e => RaisedException str_e
          | inl stderr => Returned (mkCompletedProcess stdout stderr returncode)
          end
      end
  | Expired => RaisedTimeoutExpired
  | NotLaunched str_e => RaisedException str_e
  end.

Definition subprocess_run_text (call : RunArgs) (os : OS) : RunOutcome * OS :=
  let (ended, os') := spawn call os in (run_outcome ended, os').


End TextMode.

(** Text mode with UTF-8 as the encoding: strict decoding, then every
    line end made a newline.  The error text stands for the one of the
    [UnicodeDecodeError], which also names the byte and its position. *)
Fixpoint translate_newlines (s : string) : string :=
  match s with
  | EmptyString => EmptyString
  | String a s' =>
      if Ascii.eqb a (ascii_of_nat 13) then
        match s' with
        | String b s'' =>
            if Ascii.eqb b (ascii_of_nat 10)
            then String (ascii_of_nat 10) (translate_newlines s'')
            else String (ascii_of_nat 10) (translate_newlines s')
        | EmptyString => String (ascii_of_nat 10) EmptyString
        end
      else String a (translate_newlines s')
  end.

Definition decode_utf8_text (data : string) : string + string :=
  match Unicode.utf8_decode data with
  | Some _ => inl (translate_newlines data)
  | None => inr "'utf-8' codec can't decode bytes"
  end.

(** The ends of the next commands, in order. *)
Definition scripted_spawn (call : RunArgs) (os : list ProcessEnd)
    : ProcessEnd * list ProcessEnd :=
  match os with
  | ended :: os' => (ended, os')
  | [] => (NotLaunched "[Errno 2] No such file or directory", [])
  end.


(** ** The approval ledger *)

Section LedgerProperties.

Variable lower : string -> string.
Variable re_search : string -> string -> bool.
Variable md5 : string -> N.
Variable OS : Type.
Variable subprocess_run : RunArgs -> OS -> RunOutcome * OS.
Variable strip : string -> string.
Variable now : OS -> string * OS.
Variable create_async : string -> list (string * string) -> OS -> CompletionOutcome * OS.

Implicit Types (w : World OS) (command : string) (p : gmap string string).

(** The ledger of a world. *)
Definition ledger w : gmap string string := pending_commands (bot w).

(** The store [_request_approval] makes. *)
Definition park p command : gmap string string :=
  <[command_id_of md5 command := command]> p.

Lemma approve_command_eq (command_id : option string) w :
  approve_command subprocess_run command_id w
  = match command_id with
    | Some id =>
        if truthy id then
          match ledger w !! id with
          | Some command =>
              _execute_command_directly subprocess_run command
                (mkWorld (set_pending_commands (delete id (ledger w)) (bot w))
                   (os w) (log w))
          | None => send not_found_message w
          end
        else send not_found_message w
    | None => send not_found_message w
    end.
Proof.
  unfold approve_command, read_bot, ledger. unfold mbind, M_bind at 1.
  destruct command_id as [id|]; [|reflexivity].
  destruct (truthy id); [|reflexivity].
  destruct (pending_commands (bot w) !! id); reflexivity.
Qed.

Lemma approve_command_not_found (command_id : option string) w :
  (forall id, command_id = Some id -> ledger w !! id = None) ->
  approve_command subprocess_run command_id w = (tt, logged w [Send not_found_message]).
Proof.
  intros H. rewrite approve_command_eq.
  destruct command_id as [id|]; [|reflexivity].
  rewrite (H id eq_refl). destruct (truthy id); reflexivity.
Qed.

Lemma approve_command_found (id : string) command w :
  truthy id = true ->
  ledger w !! id = Some command ->
  let call := run_call (executor (bot w)) command in
  approve_command subprocess_run (Some id) w
  = (tt, mkWorld (set_pending_commands (delete id (ledger w)) (bot w))
           (subprocess_run call (os w)).2
           (log w ++ [Send (executing_message command); Run call;
                      Send (render_result (run_result (subprocess_run call (os w)).1))])).
Proof.
  intros Htruthy Hfound. cbv zeta.
  rewrite approve_command_eq, Htruthy, Hfound, _execute_command_directly_eq.
  reflexivity.
Qed.

(** C3.  Parking a command stores it under its ticket id.  Approving
    that id then runs exactly this command and deletes the ticket in the
    same step; approving the id once more, or approving any id the ledger
    does not hold, only sends the "not found or already executed" message:
    nothing is run and the world is otherwise unchanged. *)
Theorem park_then_resolve_once command (security_result : CheckResult) w :
  let command_id := command_id_of md5 command in
  let w1 := (_request_approval md5 command security_result w).2 in
  let w2 := (approve_command subprocess_run (Some command_id) w1).2 in
  let w3 := (approve_command subprocess_run (Some command_id) w2).2 in
  ledger w1 !! command_id = Some command
  /\ runs (log w2) = (runs (log w1) ++ [run_call (executor (bot w)) command])%list
  /\ ledger w2 = delete command_id (ledger w1)
  /\ ledger w2 !! command_id = None
  /\ w3 = logged w2 [Send not_found_message]
  /\ runs (log w3) = runs (log w2)
  /\ (forall w0 id, ledger w0 !! id = None ->
        approve_command subprocess_run (Some id) w0
        = (tt, logged w0 [Send not_found_message])).
Proof.
  cbv zeta. rewrite _request_approval_eq. cbv zeta. cbn [snd].
  pose proof (command_id_of_truthy md5 command) as Htruthy.
  set (command_id := command_id_of md5 command) in *.
  set (w1 := mkWorld _ (os w) _).
  assert (ledger w1 !! command_id = Some command) as Hparked
    by (unfold ledger, w1; simpl; apply lookup_insert_eq).
  rewrite (approve_command_found command_id command w1 Htruthy Hparked).
  cbv zeta. cbn [snd].
  set (w2 := mkWorld (set_pending_commands (delete command_id (ledger w1)) (bot w1)) _ _).
  assert (ledger w2 = delete command_id (ledger w1)) as Hremoved by reflexivity.
  assert (ledger w2 !! command_id = None) as Hgone
    by (rewrite Hremoved; apply lookup_delete_eq).
  rewrite (approve_command_not_found (Some command_id) w2)
    by (intros id [= <-]; exact Hgone).
  split; [exact Hparked|].
  split; [unfold w2; cbn [log]; rewrite runs_app; reflexivity|].
  split; [exact Hremoved|].
  split; [exact Hgone|].
  split; [reflexivity|].
  split; [cbn [snd]; unfold logged; cbn [log]; rewrite runs_app; simpl;
          apply app_nil_r|].
  intros w0 id Hnone. apply approve_command_not_found. intros id' [= <-]. exact Hnone.
Qed.

End LedgerProperties.

Arguments ledger {OS} _.

(** ** Who changes the ledger *)

Section LedgerChanges.

Variable lower : string -> string.
Variable re_search : string -> string -> bool.
Variable md5 : string -> N.
Variable OS : Type.
Variable subprocess_run : RunArgs -> OS -> RunOutcome * OS.
Variable strip : string -> string.
Variable now : OS -> string * OS.
Variable create_async : string -> list (string * string) -> OS -> CompletionOutcome * OS.

Implicit Types (w : World OS) (command : string) (p : gmap string string).

Local Abbreviation security_check :=
  (_execute_with_security_check lower re_search md5 subprocess_run).

(** The ledger after a handler is the ledger before it with some
    commands parked, in order. *)
Definition parks_only {A : Type} (m : M OS A) : Prop :=
  forall w, exists parked, ledger (m w).2 = fold_left (park md5) parked (ledger w).

Lemma parks_only_keep {A : Type} (m : M OS A) :
  (forall w, ledger (m w).2 = ledger w) -> parks_only m.
Proof. intros H w. exists []. apply H. Qed.

Lemma parks_only_bind {A B : Type} (m : M OS A) (k : A -> M OS B) :
  parks_only m -> (forall a, parks_only (k a)) ->
  parks_only (mbind (MBind := M_bind OS) k m).
Proof.
  intros Hm Hk w. unfold mbind, M_bind.
  destruct (Hm w) as [parked1 H1]. destruct (m w) as [a w1]. simpl in H1.
  destruct (Hk a w1) as [parked2 H2].
  exists (parked1 ++ parked2)%list. rewrite fold_left_app, <- H1. exact H2.
Qed.

Lemma security_check_ledger command w :
  ledger (security_check command w).2 = ledger w
  \/ ledger (security_check command w).2 = park md5 (ledger w) command.
Proof.
  rewrite _execute_with_security_check_eq.
  destruct (_ <? _); [left; reflexivity|]. cbv zeta.
  destruct (_ || _).
  - left. rewrite _execute_command_directly_eq. reflexivity.
  - right. reflexivity.
Qed.

Lemma parks_only_security_check command : parks_only (security_check command).
Proof.
  intros w. destruct (security_check_ledger command w) as [H|H].
  - exists []. exact H.
  - exists [command]. exact H.
Qed.

Lemma parks_only_for_each (commands : list string) :
  parks_only (for_each OS security_check commands).
Proof.
  induction commands as [|command commands IH]; simpl.
  - apply parks_only_keep. reflexivity.
  - apply parks_only_bind; [apply parks_only_security_check | intros _; exact IH].
Qed.

Lemma parks_only_send (content : string) : parks_only (send (OS:=OS) content).
Proof. apply parks_only_keep. reflexivity. Qed.

Lemma parks_only_history_add_message (role content : string) :
  parks_only (history_add_message now role content).
Proof.
  apply parks_only_keep. intros w. unfold history_add_message.
  destruct (now (os w)). reflexivity.
Qed.

Lemma parks_only__handle_command_response (response : string) :
  parks_only (_handle_command_response lower re_search md5 subprocess_run strip response).
Proof.
  unfold _handle_command_response.
  destruct (split_response strip _) as [commands text_parts].
  apply parks_only_bind; [|intros _; apply parks_only_for_each].
  destruct text_parts; [apply parks_only_keep; reflexivity|].
  destruct (truthy _); [apply parks_only_send | apply parks_only_keep; reflexivity].
Qed.

Lemma parks_only_ask_ai (question : string) :
  parks_only (ask_ai lower re_search md5 subprocess_run strip now create_async question).
Proof.
  unfold ask_ai.
  apply parks_only_bind; [apply parks_only_send | intros _].
  apply parks_only_bind; [apply parks_only_history_add_message | intros _].
  apply parks_only_bind; [apply parks_only_keep; reflexivity | intros self].
  destruct (cfg_os_type (config self)) as [os_type|]; [|apply parks_only_send].
  cbv zeta.
  apply parks_only_bind; [apply parks_only_keep; reflexivity | intros _].
  apply parks_only_bind.
  { apply parks_only_keep. intros w. unfold call_create_async.
    destruct (create_async _ _ (os w)). reflexivity. }
  intros [response|str_e]; [|apply parks_only_send].
  apply parks_only_bind; [apply parks_only_history_add_message | intros _].
  destruct (contains response "COMMAND:");
    [apply parks_only__handle_command_response | apply parks_only_send].
Qed.

(** C10.  An approval whose id the ledger does not hold, or that
    carries no id, sends the "not found" message and changes nothing else:
    the bot with its ledger and the operating system stay as they were and
    nothing is run.  Over all commands of the bot, the ledger changes only
    by parking (one insertion under the command's ticket id, by the security check)
    and by a successful approval (the deletion of exactly the approved
    id). *)
Theorem ledger_changed_only_by_park_and_resolve (c : Command) w :
  let w' := (handle lower re_search md5 subprocess_run strip now create_async c w).2 in
  (forall command_id,
     c = Approve command_id ->
     (forall id, command_id = Some id -> ledger w !! id = None) ->
     w' = logged w [Send not_found_message]
     /\ ledger w' = ledger w /\ bot w' = bot w /\ os w' = os w
     /\ runs (log w') = runs (log w))
  /\ match c with
     | Approve command_id =>
         ledger w' = ledger w
         \/ exists id command,
              command_id = Some id /\ ledger w !! id = Some command
              /\ ledger w' = delete id (ledger w)
              /\ runs (log w') = (runs (log w) ++ [run_call (executor (bot w)) command])%list
     | Exec command =>
         ledger w' = ledger w \/ ledger w' = park md5 (ledger w) command
     | Ask _ => exists parked, ledger w' = fold_left (park md5) parked (ledger w)
     | History | Clear => ledger w' = ledger w
     end.
Proof.
  cbv zeta. split.
  - intros command_id -> Habsent. simpl.
    rewrite approve_command_not_found by exact Habsent.
    unfold logged. cbn [snd ledger bot os log]. rewrite runs_app. simpl.
    rewrite app_nil_r. repeat split.
  - destruct c as [question|command|command_id| |]; simpl.
    + apply parks_only_ask_ai.
    + apply security_check_ledger.
    + rewrite approve_command_eq.
      destruct command_id as [id|]; [|left; reflexivity].
      destruct (truthy id); [|left; reflexivity].
      destruct (ledger w !! id) as [command|] eqn:Hfound; [|left; reflexivity].
      right. exists id, command. rewrite _execute_command_directly_eq.
      cbv zeta. cbn [snd ledger bot log]. rewrite runs_app. repeat split.
      exact Hfound.
    + unfold show_history, read_bot. unfold mbind, M_bind.
      destruct (get_history _); reflexivity.
    + reflexivity.
Qed.

End LedgerChanges.

(** * Further properties of the code *)

Local Open Scope list_scope.

(** ** The classifier and its policy *)

Definition risk_rank (r : RiskLevel) : nat :=
  match r with low => 0 | medium => 1 | high => 2 end.

Lemma risk_of_count_mono (n m : nat) :
  (n <= m)%nat -> (risk_rank (risk_of_count n) <= risk_rank (risk_of_count m))%nat.
Proof.
  intros H. destruct n as [|[|[|n]]], m as [|[|[|m]]]; simpl; lia.
Qed.

Section PolicyProperties.

Variable lower : string -> string.
Variable re_search : string -> string -> bool.

(** X1.  Adding dangerous terms to the policy never makes a command
    safe again and never lowers its risk level; the matches of the old
    terms stay first in [dangerous_parts], in their order. *)
Theorem more_dangerous_terms_never_safer
    (terms more patterns : list string) (command : string) :
  let r := check_command lower re_search (mkSecurityChecker terms patterns) command in
  let r' := check_command lower re_search
              (mkSecurityChecker (terms ++ more) patterns) command in
  (safe r = false -> safe r' = false)
  /\ (risk_rank (risk_level r) <= risk_rank (risk_level r'))%nat
  /\ dangerous_parts r' = (dangerous_parts r ++ matched_terms lower more command)%list.
Proof.
  cbv zeta. rewrite !check_command_closed_form. unfold verdict. simpl.
  unfold matched_terms. rewrite List.filter_app. rewrite length_app.
  set (old := List.filter _ terms). set (new := List.filter _ more).
  split; [|split].
  - destruct old; simpl; [|reflexivity].
    destruct new; simpl; [tauto | reflexivity].
  - apply risk_of_count_mono. lia.
  - reflexivity.
Qed.

(** X2.  The dangerous-term part of a verdict depends on the text only
    through its lowered form: two texts with the same lowering get the same
    [dangerous_parts] and the same risk level (the patterns, matched
    against the original text, may still differ). *)
Theorem dangerous_parts_ignore_case (self : SecurityChecker) (command1 command2 : string) :
  lower command1 = lower command2 ->
  dangerous_parts (check_command lower re_search self command1)
  = dangerous_parts (check_command lower re_search self command2)
  /\ risk_level (check_command lower re_search self command1)
     = risk_level (check_command lower re_search self command2).
Proof.
  intros H. rewrite !check_command_closed_form. unfold verdict, matched_terms. simpl.
  rewrite H. split; reflexivity.
Qed.

(** X3.  An empty string among the dangerous terms matches every text:
    every command is then unsafe, with the empty term among its dangerous
    parts and a risk level of at least medium. *)
Theorem empty_dangerous_term_flags_everything (self : SecurityChecker) (command : string) :
  lower "" = "" ->
  In "" (dangerous_commands self) ->
  let r := check_command lower re_search self command in
  safe r = false /\ In "" (dangerous_parts r) /\ risk_level r <> low.
Proof.
  intros Hlower Hin. cbv zeta.
  assert (In "" (matched_terms lower (dangerous_commands self) command)) as Hmatched.
  { apply filter_In. split; [exact Hin|]. rewrite Hlower.
    destruct (lower command); reflexivity. }
  rewrite check_command_closed_form. unfold verdict. simpl.
  destruct (matched_terms lower (dangerous_commands self) command) as [|t [|t' [|t'' m]]];
    [destruct Hmatched | ..]; repeat split; try exact Hmatched; discriminate.
Qed.

End PolicyProperties.

Lemma dangerous_parts_ignore_case_witness :
  Impl.lower "Sudo RM -RF /" = Impl.lower "sudo rm -rf /"
  /\ dangerous_parts (check_command Impl.lower Impl.re_search
                        (SecurityChecker_init ["rm -rf"; "sudo"]) "Sudo RM -RF /")
     = dangerous_parts (check_command Impl.lower Impl.re_search
                          (SecurityChecker_init ["rm -rf"; "sudo"]) "sudo rm -rf /").
Proof.
  split; [vm_compute; reflexivity|].
  apply (dangerous_parts_ignore_case Impl.lower Impl.re_search).
  vm_compute. reflexivity.
Defined.

Lemma empty_dangerous_term_flags_everything_witness :
  Impl.lower "" = ""
  /\ In "" (dangerous_commands (SecurityChecker_init ["format"; ""]))
  /\ safe (check_command Impl.lower Impl.re_search
             (SecurityChecker_init ["format"; ""]) "dir") = false.
Proof.
  split; [reflexivity|]. split; [right; left; reflexivity|].
  pose proof (empty_dangerous_term_flags_everything Impl.lower Impl.re_search
                (SecurityChecker_init ["format"; ""]) "dir" eq_refl
                (or_intror (or_introl eq_refl))) as H.
  cbv zeta in H. destruct H as [H _]. exact H.
Defined.

(** ** The history under any limit *)

Lemma every_sublist {A : Type} (step skip : nat) (l : list A) :
  sublist (PyList.every step skip l) l.
Proof.
  revert skip. induction l as [|x l IH]; intros skip; simpl.
  - constructor.
  - destruct skip; [apply sublist_skip | apply sublist_cons]; apply IH.
Qed.

Lemma add_message_cases (self : MessageHistory) (role content now : string) :
  let appended := messages self ++ [mkHistoryEntry role content now] in
  let n := length appended in
  n = S (length (messages self))
  /\ ((Z.of_nat n <= limit self
       /\ messages (add_message self role content now) = appended)
      \/ (limit self < Z.of_nat n
          /\ messages (add_message self role content now)
             = PyList.every 5 0 (take (n - 20) appended) ++ drop (n - 20) appended)).
Proof.
  cbv zeta.
  assert (length (messages self ++ [mkHistoryEntry role content now])
          = S (length (messages self))) as Hlen
    by (rewrite length_app, Nat.add_comm; reflexivity).
  split; [exact Hlen|]. rewrite Hlen.
  destruct (Z_le_gt_dec (count self + 1) (limit self)) as [Hfit|Hover]; unfold count in *.
  - left. split; [lia|]. apply add_message_within. exact Hfit.
  - right. split; [lia|]. rewrite <- Hlen. apply add_message_over. unfold count. lia.
Qed.

Lemma last_add_message (self : MessageHistory) (role content now : string) :
  last (messages (add_message self role content now))
  = Some (mkHistoryEntry role content now).
Proof.
  destruct (add_message_cases self role content now) as [Hlen [[_ ->] | [_ ->]]].
  - apply last_snoc.
  - rewrite Hlen, drop_app_le by lia. rewrite app_assoc. apply last_snoc.
Qed.

(** X4.  Whatever the limit, the entry just appended is the last entry
    of the history when [add_message] returns, compaction or not; so the
    history is never empty after an append. *)
Theorem add_message_newest_is_last (self : MessageHistory) (role content now : string) :
  last (messages (add_message self role content now))
  = Some (mkHistoryEntry role content now)
  /\ messages (add_message self role content now) <> [].
Proof.
  pose proof (last_add_message self role content now) as H.
  split; [exact H|]. intros Hnil. rewrite Hnil in H. discriminate.
Qed.

(** X5.  An append never reorders, duplicates or alters entries: the
    new entry list is a subsequence of the old list followed by the new
    entry, and the limit of the history is unchanged. *)
Theorem add_message_keeps_a_subsequence
    (self : MessageHistory) (role content now : string) :
  sublist (messages (add_message self role content now))
          (messages self ++ [mkHistoryEntry role content now])%list
  /\ limit (add_message self role content now) = limit self.
Proof.
  split; [|apply add_message_limit].
  destruct (add_message_cases self role content now) as [_ [[_ ->] | [_ ->]]].
  - reflexivity.
  - set (appended := (messages self ++ _)%list).
    assert (sublist
              (PyList.every 5 0 (take (length appended - 20) appended)
               ++ drop (length appended - 20) appended)
              (take (length appended - 20) appended
               ++ drop (length appended - 20) appended)) as H
      by (apply sublist_app; [apply every_sublist | reflexivity]).
    rewrite take_drop in H. exact H.
Qed.

Lemma add_message_bound_any_limit (self : MessageHistory) (role content now : string) :
  count self <= Z.max (limit self) 21 ->
  count (add_message self role content now) <= Z.max (limit self) 21.
Proof.
  intros Hcount. unfold count in *.
  destruct (add_message_cases self role content now) as [Hlen [[Hfit ->] | [Hover ->]]].
  - lia.
  - rewrite length_app, every_length, length_take, length_drop, Hlen by lia.
    set (n := length (messages self)) in *.
    pose proof (Nat.div_mod_eq ((S n - 20) `min` S n + (5 - 1 - 0)) 5) as Hdiv.
    pose proof (Nat.mod_upper_bound ((S n - 20) `min` S n + (5 - 1 - 0)) 5 ltac:(lia))
      as Hmod.
    lia.
Qed.

(** X6.  For every limit, also one below 21, a history never holds more
    than max(limit, 21) entries: a history within that bound stays within
    it after each append of any sequence of appends. *)
Theorem history_never_exceeds_max_limit_21
    (self : MessageHistory) (entries : list (string * string * string)) (k : nat) :
  count self <= Z.max (limit self) 21 ->
  count (add_messages self (take k entries)) <= Z.max (limit self) 21.
Proof.
  intros Hcount. unfold add_messages.
  generalize (take k entries). clear k entries. intros entries.
  revert self Hcount.
  induction entries as [|[[role content] now] entries IH]; intros self Hcount; simpl.
  - assumption.
  - rewrite <- (add_message_limit self role content now).
    apply IH. rewrite add_message_limit. apply add_message_bound_any_limit. assumption.
Qed.

Lemma history_never_exceeds_max_limit_21_witness :
  count (MessageHistory_init 3) <= Z.max (limit (MessageHistory_init 3)) 21
  /\ count (add_messages (MessageHistory_init 3) (take 60 (numbered 60))) <= 21.
Proof.
  split; [vm_compute; discriminate|].
  apply (history_never_exceeds_max_limit_21 (MessageHistory_init 3) (numbered 60) 60).
  vm_compute. discriminate.
Defined.

(** ** Text sent to the chat and to the completion engine *)

Lemma py_len_nonneg (s : string) : 0 <= py_len s.
Proof. induction s as [|a s IH]; simpl; [lia | destruct (is_continuation a); lia]. Qed.

Lemma py_len_app (s t : string) : py_len (s +:+ t) = py_len s + py_len t.
Proof. induction s as [|a s IH]; simpl; [reflexivity | rewrite IH; lia]. Qed.

Lemma py_len_str_take (n : nat) (s : string) :
  py_len (str_take n s) = Z.min (Z.of_nat n) (py_len s).
Proof.
  revert n. induction s as [|a s IH]; intros n; simpl.
  - lia.
  - pose proof (py_len_nonneg s).
    destruct (is_continuation a) eqn:E; simpl.
    + rewrite E, IH. lia.
    + destruct n as [|n]; simpl; [lia|]. rewrite E, IH. lia.
Qed.

Lemma truthy_app (s t : string) : truthy (s +:+ t) = truthy s || truthy t.
Proof. destruct s; reflexivity. Qed.

(** X7.  [content[:n] + "..."] when the content has more than [n] code
    points: the shortened text has exactly [n + 3] code points and starts
    with the first [n] of the content; a content of at most [n] code points
    is passed unchanged, so the result never has more than [n + 3]. *)
Theorem ellipsize_length (n : nat) (content : string) :
  (py_len content <= Z.of_nat n -> ellipsize n content = content)
  /\ (Z.of_nat n < py_len content ->
      py_len (ellipsize n content) = Z.of_nat n + 3
      /\ ellipsize n content = str_take n content +:+ "...")
  /\ py_len (ellipsize n content) <= Z.of_nat n + 3.
Proof.
  unfold ellipsize.
  destruct (Z.ltb_spec (Z.of_nat n) (py_len content)) as [Hlong|Hshort].
  - rewrite py_len_app, py_len_str_take.
    change (py_len "...") with 3.
    split; [lia|]. split; [intros _; split; [lia | reflexivity] | lia].
  - split; [reflexivity|]. split; lia.
Qed.

(** X8.  The context handed to the completion engine is built from the
    five most recent entries only: older entries do not change it. *)
Theorem _build_context_uses_last_five (older recent : list HistoryEntry) :
  length recent = 5%nat ->
  _build_context (older ++ recent) = _build_context recent.
Proof.
  intros Hlen. unfold _build_context.
  change (-5) with (- Z.of_nat 5).
  rewrite !slice_last by lia.
  rewrite length_app, Hlen.
  replace (length older + 5 - 5)%nat with (length older) by lia.
  rewrite drop_app_length. replace (5 - 5)%nat with 0%nat by lia. rewrite drop_0.
  destruct recent as [|e recent]; [discriminate|].
  destruct older; reflexivity.
Qed.

Lemma _build_context_uses_last_five_witness :
  let entry i := mkHistoryEntry "user" (pretty i) "t" in
  length (map entry (seq 3 5)) = 5%nat
  /\ _build_context (map entry (seq 0 3) ++ map entry (seq 3 5))
     = _build_context (map entry (seq 3 5)).
Proof.
  cbv zeta. split; [reflexivity|].
  apply _build_context_uses_last_five. reflexivity.
Defined.

(** X9.  The text [_execute_command_directly] sends for a result is
    never empty, and for a completed run it has at most 1820 code points:
    1800 of the output and the truncation marker.  (The text for a failed
    run carries the whole error.) *)
Theorem render_result_bounded (result : ExecResult) :
  truthy (render_result result) = true
  /\ (success result = true -> py_len (render_result result) <= 1820).
Proof.
  destruct result as [stdout stderr returncode|error]; cbn [render_result success].
  - set (out1 := if truthy stdout then _ else (""%string)).
    set (out2 := if truthy stderr then _ else out1).
    set (out3 := if negb (returncode =? 0) then _ else out2).
    set (out4 := if negb (truthy out3) then _ else out3).
    assert (truthy out4 = true) as Hout4.
    { unfold out4. destruct (truthy out3) eqn:E; [exact E | reflexivity]. }
    destruct (Z.ltb_spec 1800 (py_len out4)) as [Hlong|Hshort].
    + split.
      * rewrite truthy_app. apply orb_true_iff. right. reflexivity.
      * intros _. rewrite py_len_app, py_len_str_take.
        change (py_len (NL +:+ "... (вывод обрезан)")) with 20. lia.
    + split; [exact Hout4 | lia].
  - split; [reflexivity | discriminate].
Qed.

(** ** What the bot runs and what it holds, over its whole life *)

Section Lifetime.

Variable lower : string -> string.
Variable re_search : string -> string -> bool.
Variable md5 : string -> N.
Variable OS : Type.
Variable subprocess_run : RunArgs -> OS -> RunOutcome * OS.
Variable strip : string -> string.
Variable now : OS -> string * OS.
Variable create_async : string -> list (string * string) -> OS -> CompletionOutcome * OS.

Implicit Types (w : World OS) (b : DiscordBot) (command : string).

(** The parts of the bot that decide what may run. *)
Definition policy b : Config * SecurityChecker * CommandExecutor :=
  (config b, security_checker b, executor b).

Definition within_length b command : Prop :=
  py_len command <= get (cfg_max_command_length (config b)) 1000.

Definition unsafe_for b command : Prop :=
  safe (check_command lower re_search (security_checker b) command) = false.

Definition auto_approve b : bool := get (cfg_auto_approve_safe (config b)) false.

(** Run at once: within the length and safe, or auto-approval is on. *)
Definition may_run b command : Prop :=
  within_length b command /\ (~ unsafe_for b command \/ auto_approve b = true).

(** Held for approval: within the length, unsafe, auto-approval off. *)
Definition must_wait b command : Prop :=
  within_length b command /\ unsafe_for b command /\ auto_approve b = false.

Lemma may_run_policy b b' command :
  policy b' = policy b -> may_run b command -> may_run b' command.
Proof.
  unfold policy, may_run, within_length, unsafe_for, auto_approve.
  intros [= -> -> _]. tauto.
Qed.

Lemma must_wait_policy b b' command :
  policy b' = policy b -> must_wait b command -> must_wait b' command.
Proof.
  unfold policy, must_wait, within_length, unsafe_for, auto_approve.
  intros [= -> -> _]. tauto.
Qed.

(** A step that approves nothing: the policy is kept; the log grows by
    [events] and the ledger by the [parked] commands; what is run was
    classified in this step and may run; what is parked was classified in
    this step and must wait. *)
Definition lawful w w' : Prop :=
  policy (bot w') = policy (bot w)
  /\ exists events parked,
       log w' = (log w ++ events)%list
       /\ ledger w' = fold_left (park md5) parked (ledger w)
       /\ Forall (fun call => In (args call) (classified events)
                              /\ may_run (bot w) (args call)) (runs events)
       /\ Forall (fun command => In command (classified events)
                                 /\ must_wait (bot w) command) parked.

Lemma lawful_quiet w w' (events : list Event) :
  policy (bot w') = policy (bot w) ->
  ledger w' = ledger w ->
  log w' = (log w ++ events)%list ->
  runs events = [] ->
  lawful w w'.
Proof.
  intros Hpolicy Hledger Hlog Hruns. split; [exact Hpolicy|].
  exists events, []. rewrite Hruns. repeat split; try assumption; constructor.
Qed.

Lemma lawful_refl w : lawful w w.
Proof. apply (lawful_quiet w w []); try reflexivity. symmetry. apply app_nil_r. Qed.

Lemma lawful_trans w1 w2 w3 : lawful w1 w2 -> lawful w2 w3 -> lawful w1 w3.
Proof.
  intros [Hp1 [ev1 [pk1 [Hlog1 [Hled1 [Hrun1 Hpark1]]]]]]
         [Hp2 [ev2 [pk2 [Hlog2 [Hled2 [Hrun2 Hpark2]]]]]].
  split; [congruence|].
  exists (ev1 ++ ev2)%list, (pk1 ++ pk2)%list.
  split; [rewrite Hlog2, Hlog1, app_assoc; reflexivity|].
  split; [rewrite Hled2, Hled1, fold_left_app; reflexivity|].
  split.
  - rewrite runs_app. apply Forall_app. split.
    + eapply Forall_impl; [exact Hrun1|]. intros call [Hin Hmay]. split; [|exact Hmay].
      rewrite classified_app. apply in_or_app. left. exact Hin.
    + eapply Forall_impl; [exact Hrun2|]. intros call [Hin Hmay]. split.
      * rewrite classified_app. apply in_or_app. right. exact Hin.
      * apply (may_run_policy (bot w2)); [symmetry; exact Hp1 | exact Hmay].
  - apply Forall_app. split.
    + eapply Forall_impl; [exact Hpark1|]. intros c [Hin Hwait]. split; [|exact Hwait].
      rewrite classified_app. apply in_or_app. left. exact Hin.
    + eapply Forall_impl; [exact Hpark2|]. intros c [Hin Hwait]. split.
      * rewrite classified_app. apply in_or_app. right. exact Hin.
      * apply (must_wait_policy (bot w2)); [symmetry; exact Hp1 | exact Hwait].
Qed.

(** A handler each of whose runs is a lawful step. *)
Definition lawful_handler {A : Type} (m : M OS A) : Prop :=
  forall w, lawful w (m w).2.

Lemma lawful_handler_bind {A B : Type} (m : M OS A) (k : A -> M OS B) :
  lawful_handler m -> (forall a, lawful_handler (k a)) ->
  lawful_handler (mbind (MBind := M_bind OS) k m).
Proof.
  intros Hm Hk w. unfold mbind, M_bind.
  pose proof (Hm w) as H1. destruct (m w) as [a w1]. simpl in H1.
  apply (lawful_trans w w1); [exact H1 | apply Hk].
Qed.

Lemma lawful_handler_ret {A : Type} (a : A) :
  lawful_handler (mret (MRet := M_ret OS) a).
Proof. intros w. apply lawful_refl. Qed.

Lemma lawful_handler_send (content : string) : lawful_handler (send (OS:=OS) content).
Proof. intros w. apply (lawful_quiet _ _ [Send content]); reflexivity. Qed.

Lemma lawful_handler_history_add_message (role content : string) :
  lawful_handler (history_add_message now role content).
Proof.
  intros w. unfold history_add_message. destruct (now (os w)) as [stamp os'].
  apply (lawful_quiet _ _ []); try reflexivity. simpl. symmetry. apply app_nil_r.
Qed.

Lemma args_run_call (self : CommandExecutor) command : args (run_call self command) = command.
Proof. unfold run_call. destruct (String.eqb _ _); reflexivity. Qed.

Lemma lawful_handler_security_check command :
  lawful_handler (_execute_with_security_check lower re_search md5 subprocess_run command).
Proof.
  intros w. rewrite _execute_with_security_check_eq.
  destruct (Z.ltb_spec (get (cfg_max_command_length (config (bot w))) 1000)
              (py_len command)) as [Hlong|Hfit].
  { apply lawful_handler_send. }
  cbv zeta.
  destruct (safe (check_command lower re_search (security_checker (bot w)) command)
            || get (cfg_auto_approve_safe (config (bot w))) false) eqn:Hgo.
  - rewrite _execute_command_directly_eq. cbv zeta. cbn [snd].
    split; [reflexivity|].
    eexists [Classify command; Send _; Run _; Send _], [].
    split; [unfold logged; cbn [log bot os]; rewrite <- app_assoc; reflexivity|].
    split; [reflexivity|].
    split; [|constructor].
    constructor; [|constructor]. cbn [args]. unfold logged. cbn [bot].
    rewrite args_run_call. split; [left; reflexivity|].
    split; [exact Hfit|]. unfold unsafe_for, auto_approve.
    apply orb_true_iff in Hgo as [Hsafe|Hauto]; [left; congruence | right; exact Hauto].
  - rewrite _request_approval_eq. cbv zeta. cbn [snd].
    apply orb_false_iff in Hgo as [Hsafe Hauto].
    split; [reflexivity|].
    eexists [Classify command; Send _], [command].
    split; [unfold logged; cbn [log bot os]; rewrite <- app_assoc; reflexivity|].
    split; [reflexivity|].
    split; [constructor|].
    constructor; [|constructor]. split; [left; reflexivity|].
    split; [exact Hfit|]. split; [exact Hsafe | exact Hauto].
Qed.

Lemma lawful_handler_for_each (commands : list string) :
  lawful_handler
    (for_each OS (_execute_with_security_check lower re_search md5 subprocess_run) commands).
Proof.
  induction commands as [|command commands IH]; simpl.
  - apply lawful_handler_ret.
  - apply lawful_handler_bind; [apply lawful_handler_security_check | intros _; exact IH].
Qed.

Lemma lawful_handler__handle_command_response (response : string) :
  lawful_handler
    (_handle_command_response lower re_search md5 subprocess_run strip response).
Proof.
  unfold _handle_command_response.
  destruct (split_response strip _) as [commands text_parts].
  apply lawful_handler_bind; [|intros _; apply lawful_handler_for_each].
  destruct text_parts; [apply lawful_handler_ret|].
  destruct (truthy _); [apply lawful_handler_send | apply lawful_handler_ret].
Qed.

Lemma lawful_handler_ask_ai (question : string) :
  lawful_handler
    (ask_ai lower re_search md5 subprocess_run strip now create_async question).
Proof.
  unfold ask_ai.
  apply lawful_handler_bind; [apply lawful_handler_send | intros _].
  apply lawful_handler_bind; [apply lawful_handler_history_add_message | intros _].
  apply lawful_handler_bind; [intros w; apply lawful_refl | intros self].
  destruct (cfg_os_type (config self)) as [os_type|]; [|apply lawful_handler_send].
  cbv zeta.
  apply lawful_handler_bind.
  { intros w. eapply lawful_quiet; reflexivity. }
  intros _. apply lawful_handler_bind.
  { intros w. unfold call_create_async. destruct (create_async _ _ (os w)).
    apply (lawful_quiet _ _ []); try reflexivity. simpl. symmetry. apply app_nil_r. }
  intros [response|str_e]; [|apply lawful_handler_send].
  apply lawful_handler_bind; [apply lawful_handler_history_add_message | intros _].
  destruct (contains response "COMMAND:");
    [apply lawful_handler__handle_command_response | apply lawful_handler_send].
Qed.

Local Abbreviation handle_ :=
  (handle lower re_search md5 subprocess_run strip now create_async).

Lemma lawful_handler_show_history : lawful_handler (show_history (OS:=OS)).
Proof.
  intros w. unfold show_history, read_bot. unfold mbind, M_bind.
  destruct (get_history _); apply lawful_handler_send.
Qed.

Lemma lawful_handler_clear_history : lawful_handler (clear_history (OS:=OS)).
Proof. intros w. eapply lawful_quiet; reflexivity. Qed.

(** X10.  In one [!ask], [!exec], [!history] or [!clear], every
    [subprocess.run] call is for a command that the same handler call
    classified before, that is within the maximum length, and that is safe
    or runs under auto-approval; every command added to the ledger was
    classified in that call, is within the length, unsafe, and parked with
    auto-approval off; and the configuration, the checker and the executor
    are unchanged.  Only [!approve] runs a command without classifying it. *)
Theorem unapproved_runs_are_classified_and_permitted (c : Command) w :
  match c with
  | Approve _ => True
  | Ask _ | Exec _ | History | Clear => lawful w (handle_ c w).2
  end.
Proof.
  destruct c as [question|command|command_id| |]; simpl.
  - apply lawful_handler_ask_ai.
  - apply lawful_handler_security_check.
  - exact I.
  - apply lawful_handler_show_history.
  - apply lawful_handler_clear_history.
Qed.

(** A ticket is stored under the id of its command, which was classified
    earlier and must wait under the policy. *)
Definition ticket_ok w (id command : string) : Prop :=
  id = command_id_of md5 command
  /\ must_wait (bot w) command
  /\ In command (classified (log w)).

(** A run was of a command within the length and classified earlier. *)
Definition run_ok w (call : RunArgs) : Prop :=
  within_length (bot w) (args call) /\ In (args call) (classified (log w)).

Definition sound w : Prop :=
  map_Forall (ticket_ok w) (ledger w) /\ Forall (run_ok w) (runs (log w)).

Lemma ticket_ok_later w w' (events : list Event) (id command : string) :
  policy (bot w') = policy (bot w) ->
  log w' = log w ++ events ->
  ticket_ok w id command -> ticket_ok w' id command.
Proof.
  intros Hpolicy Hlog [Hid [Hwait Hin]]. split; [exact Hid|]. split.
  - apply (must_wait_policy (bot w)); assumption.
  - rewrite Hlog, classified_app. apply in_or_app. left. exact Hin.
Qed.

Lemma run_ok_later w w' (events : list Event) (call : RunArgs) :
  policy (bot w') = policy (bot w) ->
  log w' = log w ++ events ->
  run_ok w call -> run_ok w' call.
Proof.
  intros Hpolicy Hlog [Hlen Hin]. split.
  - unfold within_length, policy in *. injection Hpolicy as -> _ _. exact Hlen.
  - rewrite Hlog, classified_app. apply in_or_app. left. exact Hin.
Qed.

Lemma map_Forall_fold_park (P : string -> string -> Prop)
    (parked : list string) (p : gmap string string) :
  map_Forall P p ->
  Forall (fun command => P (command_id_of md5 command) command) parked ->
  map_Forall P (fold_left (park md5) parked p).
Proof.
  revert p. induction parked as [|command parked IH]; intros p Hp Hparked; simpl.
  - exact Hp.
  - inversion Hparked as [|? ? Hc Hrest]; subst.
    apply IH; [|exact Hrest]. unfold park. apply map_Forall_insert_2; assumption.
Qed.

Lemma sound_lawful w w' : sound w -> lawful w w' -> sound w'.
Proof.
  intros [Htickets Hruns] [Hpolicy [events [parked [Hlog [Hledger [Hnew Hparked]]]]]].
  split.
  - rewrite Hledger. apply map_Forall_fold_park.
    + eapply map_Forall_impl; [exact Htickets|]. intros id command.
      apply (ticket_ok_later w w' events); assumption.
    + eapply Forall_impl; [exact Hparked|]. intros command [Hin Hwait].
      split; [reflexivity|]. split.
      * apply (must_wait_policy (bot w)); assumption.
      * rewrite Hlog, classified_app. apply in_or_app. right. exact Hin.
  - rewrite Hlog, runs_app. apply Forall_app. split.
    + eapply Forall_impl; [exact Hruns|]. intros call.
      apply (run_ok_later w w' events); assumption.
    + eapply Forall_impl; [exact Hnew|]. intros call [Hin [Hlen _]]. split.
      * unfold within_length, policy in *. injection Hpolicy as -> _ _. exact Hlen.
      * rewrite Hlog, classified_app. apply in_or_app. right. exact Hin.
Qed.

Lemma sound_approve_command (command_id : option string) w :
  sound w ->
  sound (approve_command subprocess_run command_id w).2
  /\ policy (bot (approve_command subprocess_run command_id w).2) = policy (bot w).
Proof.
  intros Hsound.
  assert (sound (send not_found_message w).2
          /\ policy (bot (send not_found_message w).2) = policy (bot w)) as Hquiet.
  { split; [|reflexivity].
    apply (sound_lawful w); [exact Hsound | apply lawful_handler_send]. }
  destruct command_id as [id|];
    [destruct (truthy id) eqn:Htruthy;
     [destruct (ledger w !! id) as [command|] eqn:Hfound|]|].
  2-4: rewrite approve_command_eq; rewrite ?Htruthy, ?Hfound; exact Hquiet.
  rewrite (approve_command_found _ subprocess_run id command w Htruthy Hfound).
  cbv zeta. cbn [snd]. split; [|reflexivity].
  destruct Hsound as [Htickets Hruns].
  set (w' := mkWorld _ _ _).
  assert (policy (bot w') = policy (bot w)) as Hpolicy by reflexivity.
  assert (log w' = log w ++ [Send (executing_message command);
                             Run (run_call (executor (bot w)) command);
                             Send (render_result
                                     (run_result
                                        (subprocess_run
                                           (run_call (executor (bot w)) command)
                                           (os w)).1))]) as Hlog by reflexivity.
  split.
  - change (ledger w') with (delete id (ledger w)).
    apply map_Forall_delete. eapply map_Forall_impl; [exact Htickets|].
    intros id' command'. apply (ticket_ok_later w w' _ id' command' Hpolicy Hlog).
  - rewrite Hlog, runs_app. apply Forall_app. split.
    + eapply Forall_impl; [exact Hruns|]. intros call.
      apply (run_ok_later w w' _ call Hpolicy Hlog).
    + constructor; [|constructor].
      destruct (Htickets id command Hfound) as [_ [[Hlen _] Hin]].
      unfold run_ok. cbn [args]. rewrite args_run_call. split.
      * exact Hlen.
      * rewrite Hlog, classified_app. apply in_or_app. left. exact Hin.
Qed.

Lemma sound_handle (c : Command) w :
  sound w ->
  sound (handle_ c w).2 /\ policy (bot (handle_ c w).2) = policy (bot w).
Proof.
  intros Hsound.
  assert (forall w', lawful w w' -> sound w' /\ policy (bot w') = policy (bot w))
    as Hstep
    by (intros w' Hlawful; split; [apply (sound_lawful w); assumption | apply Hlawful]).
  destruct c as [question|command|command_id| |]; simpl.
  - apply Hstep, lawful_handler_ask_ai.
  - apply Hstep, lawful_handler_security_check.
  - apply sound_approve_command. exact Hsound.
  - apply Hstep, lawful_handler_show_history.
  - apply Hstep, lawful_handler_clear_history.
Qed.

(** The bot after a sequence of commands. *)
Definition run_commands (commands : list Command) w : World OS :=
  fold_left (fun w c => (handle_ c w).2) commands w.

Lemma sound_run_commands (commands : list Command) w :
  sound w ->
  sound (run_commands commands w)
  /\ policy (bot (run_commands commands w)) = policy (bot w).
Proof.
  revert w. induction commands as [|c commands IH]; intros w Hsound; simpl.
  - split; [exact Hsound | reflexivity].
  - destruct (sound_handle c w Hsound) as [Hsound' Hpolicy'].
    destruct (IH _ Hsound') as [Hsound'' Hpolicy''].
    split; [exact Hsound'' | congruence].
Qed.

Lemma sound_initial (cfg : Config) (os0 : OS) :
  sound (mkWorld (DiscordBot_init cfg) os0 []).
Proof. split; [apply map_Forall_empty | constructor]. Qed.

(** X11.  After any sequence of commands on a freshly built bot, every
    ticket in the ledger is stored under the 8-character id of its command;
    the command was classified earlier, is unsafe under the bot's checker,
    is within the maximum length, and auto-approval is off. *)
Theorem every_ticket_is_an_unsafe_classified_command
    (cfg : Config) (os0 : OS) (commands : list Command) :
  let w := run_commands commands (mkWorld (DiscordBot_init cfg) os0 []) in
  forall id command,
    ledger w !! id = Some command ->
    id = command_id_of md5 command
    /\ String.length id = 8%nat
    /\ In command (classified (log w))
    /\ py_len command <= get (cfg_max_command_length cfg) 1000
    /\ safe (check_command lower re_search
               (SecurityChecker_init (get (cfg_dangerous_commands cfg) [])) command)
       = false
    /\ get (cfg_auto_approve_safe cfg) false = false.
Proof.
  cbv zeta. intros id command Hfound.
  destruct (sound_run_commands commands _ (sound_initial cfg os0))
    as [[Htickets _] Hpolicy].
  destruct (Htickets id command Hfound) as [Hid [[Hlen [Hunsafe Hauto]] Hin]].
  unfold within_length, unsafe_for, auto_approve, policy in *.
  injection Hpolicy as Hconfig Hchecker _. rewrite Hconfig in *. rewrite Hchecker in *.
  split; [exact Hid|]. split; [rewrite Hid; apply command_id_of_length|].
  repeat split; assumption.
Qed.

(** X12.  After any sequence of commands on a freshly built bot, every
    [subprocess.run] call in the log was of a command within the maximum
    length that the classifier had been called on; and the configuration,
    the checker and the executor are those the bot was built with. *)
Theorem every_run_was_classified_and_within_length
    (cfg : Config) (os0 : OS) (commands : list Command) :
  let w0 := mkWorld (DiscordBot_init cfg) os0 [] in
  let w := run_commands commands w0 in
  Forall (fun call =>
            py_len (args call) <= get (cfg_max_command_length cfg) 1000
            /\ In (args call) (classified (log w)))
         (runs (log w))
  /\ config (bot w) = cfg
  /\ security_checker (bot w) = security_checker (bot w0)
  /\ executor (bot w) = executor (bot w0).
Proof.
  cbv zeta.
  destruct (sound_run_commands commands _ (sound_initial cfg os0))
    as [[_ Hruns] Hpolicy].
  unfold policy in Hpolicy. injection Hpolicy as Hconfig Hchecker Hexecutor.
  split; [|split; [exact Hconfig | split; assumption]].
  eapply Forall_impl; [exact Hruns|]. intros call [Hlen Hin].
  unfold within_length in Hlen. rewrite Hconfig in Hlen. split; assumption.
Qed.

End Lifetime.

(** ** Tickets side by side *)

Section TicketProperties.

Variable lower : string -> string.
Variable re_search : string -> string -> bool.
Variable md5 : string -> N.
Variable OS : Type.
Variable subprocess_run : RunArgs -> OS -> RunOutcome * OS.

Implicit Types (w : World OS) (command : string).

Local Abbreviation exec_ :=
  (_execute_with_security_check lower re_search md5 subprocess_run).
Local Abbreviation approve_ := (approve_command subprocess_run).

(** X13.  An approval touches at most the ticket it names, and a
    checked command at most the ticket of its own id: every other ticket is
    still in the ledger, unchanged. *)
Theorem other_tickets_untouched (id : string) w :
  (forall command_id, command_id <> Some id ->
     ledger (approve_ command_id w).2 !! id = ledger w !! id)
  /\ (forall command, command_id_of md5 command <> id ->
        ledger (exec_ command w).2 !! id = ledger w !! id).
Proof.
  split.
  - intros command_id Hother. rewrite approve_command_eq.
    destruct command_id as [id'|]; [|reflexivity].
    destruct (truthy id'); [|reflexivity].
    destruct (ledger w !! id') as [command|] eqn:Hfound; [|reflexivity].
    rewrite _execute_command_directly_eq. cbv zeta. cbn [snd ledger bot].
    apply lookup_delete_ne. congruence.
  - intros command Hother.
    destruct (security_check_ledger lower re_search md5 OS subprocess_run command w)
      as [-> | ->]; [reflexivity|].
    unfold park. apply lookup_insert_ne. exact Hother.
Qed.

(** X14.  Checking the same unsafe command twice leaves one ticket:
    the first approval of its id runs the command once and empties the
    slot, and the next approval finds nothing and runs nothing. *)
Theorem parking_twice_is_approved_once command w :
  py_len command <= get (cfg_max_command_length (config (bot w))) 1000 ->
  safe (check_command lower re_search (security_checker (bot w)) command) = false ->
  get (cfg_auto_approve_safe (config (bot w))) false = false ->
  let id := command_id_of md5 command in
  let w1 := (exec_ command w).2 in
  let w2 := (exec_ command w1).2 in
  let w3 := (approve_ (Some id) w2).2 in
  let w4 := (approve_ (Some id) w3).2 in
  ledger w2 = ledger w1
  /\ runs (log w2) = runs (log w)
  /\ runs (log w3) = runs (log w) ++ [run_call (executor (bot w)) command]
  /\ ledger w3 !! id = None
  /\ runs (log w4) = runs (log w3)
  /\ ledger w4 = ledger w3.
Proof.
  intros Hlen Hunsafe Hauto. cbv zeta.
  assert (forall w0,
            config (bot w0) = config (bot w) ->
            security_checker (bot w0) = security_checker (bot w) ->
            exec_ command w0
            = (tt, mkWorld
                     (set_pending_commands
                        (park md5 (pending_commands (bot w0)) command) (bot w0))
                     (os w0)
                     (log w0 ++ [Classify command;
                                 Send (approval_prompt command (command_id_of md5 command)
                                         (check_command lower re_search
                                            (security_checker (bot w)) command))])))
    as Hpark.
  { intros w0 Hconfig Hchecker. rewrite _execute_with_security_check_eq.
    rewrite Hconfig, Hchecker.
    destruct (Z.ltb_spec (get (cfg_max_command_length (config (bot w))) 1000)
                (py_len command)); [lia|].
    cbv zeta. rewrite Hunsafe, Hauto. cbn [orb].
    rewrite _request_approval_eq. cbv zeta. unfold logged. cbn [bot os log].
    rewrite <- app_assoc. reflexivity. }
  rewrite (Hpark w eq_refl eq_refl). cbn [snd].
  set (w1 := mkWorld _ (os w) _).
  rewrite (Hpark w1 eq_refl eq_refl). cbn [snd].
  set (w2 := mkWorld _ (os w1) _).
  assert (ledger w2 = ledger w1) as Hsame
    by (unfold ledger, w2, w1, park; cbn [bot pending_commands set_pending_commands];
        apply insert_insert_eq).
  assert (ledger w2 !! command_id_of md5 command = Some command) as Hfound
    by (unfold ledger, w2, park; cbn [bot pending_commands set_pending_commands];
        apply lookup_insert_eq).
  rewrite (approve_command_found _ subprocess_run _ command w2
             (command_id_of_truthy md5 command) Hfound).
  cbv zeta. cbn [snd].
  set (w3 := mkWorld (set_pending_commands _ (bot w2)) _ _).
  assert (ledger w3 !! command_id_of md5 command = None) as Hgone
    by (unfold ledger, w3; cbn [bot pending_commands set_pending_commands];
        apply lookup_delete_eq).
  rewrite (approve_command_not_found _ subprocess_run (Some (command_id_of md5 command)) w3)
    by (intros id' [= <-]; exact Hgone).
  cbn [snd]. unfold logged, w3, w2, w1. cbn [log bot os ledger].
  rewrite !runs_app. cbn [runs omap]. simpl.
  rewrite !app_nil_r. repeat split; try assumption; reflexivity.
Qed.

End TicketProperties.

Lemma parking_twice_is_approved_once_witness :
  let w := scripted_world DEFAULT_CONFIG
             (mkScriptedOS [Returned (mkCompletedProcess "hello" "" 0)] [] 0) in
  let command := "echo hello | cat" in
  let exec_ := _execute_with_security_check Impl.lower Impl.re_search Impl.md5
                 scripted_run command in
  py_len command <= get (cfg_max_command_length (config (bot w))) 1000
  /\ safe (check_command Impl.lower Impl.re_search (security_checker (bot w)) command)
     = false
  /\ get (cfg_auto_approve_safe (config (bot w))) false = false
  /\ ledger (approve_command scripted_run (Some (command_id_of Impl.md5 command))
               (exec_ (exec_ w).2).2).2
     !! command_id_of Impl.md5 command = None.
Proof.
  cbv zeta.
  assert (py_len "echo hello | cat"
          <= get (cfg_max_command_length
                    (config (bot (scripted_world DEFAULT_CONFIG
                                    (mkScriptedOS
                                       [Returned (mkCompletedProcess "hello" "" 0)]
                                       [] 0))))) 1000) as H1
    by (vm_compute; discriminate).
  assert (safe (check_command Impl.lower Impl.re_search
                  (security_checker
                     (bot (scripted_world DEFAULT_CONFIG
                             (mkScriptedOS
                                [Returned (mkCompletedProcess "hello" "" 0)] [] 0))))
                  "echo hello | cat") = false) as H2
    by (vm_compute; reflexivity).
  assert (get (cfg_auto_approve_safe
                 (config (bot (scripted_world DEFAULT_CONFIG
                                 (mkScriptedOS
                                    [Returned (mkCompletedProcess "hello" "" 0)]
                                    [] 0))))) false = false) as H3
    by reflexivity.
  split; [exact H1|]. split; [exact H2|]. split; [exact H3|].
  pose proof (parking_twice_is_approved_once Impl.lower Impl.re_search Impl.md5
                ScriptedOS scripted_run "echo hello | cat" _ H1 H2 H3) as H.
  cbv zeta in H. destruct H as [_ [_ [_ [H _]]]]. exact H.
Defined.

(** ** Questions to the completion engine *)

Section AskProperties.

Variable lower : string -> string.
Variable re_search : string -> string -> bool.
Variable md5 : string -> N.
Variable OS : Type.
Variable subprocess_run : RunArgs -> OS -> RunOutcome * OS.
Variable strip : string -> string.
Variable now : OS -> string * OS.
Variable create_async : string -> list (string * string) -> OS -> CompletionOutcome * OS.

Implicit Types (w : World OS) (command : string).

Local Abbreviation exec_ :=
  (_execute_with_security_check lower re_search md5 subprocess_run).

(** A line that, stripped, starts with the marker. *)
Definition is_command_line (line : string) : bool :=
  startswith (strip line) "COMMAND:".

(** The command of such a line. *)
Definition command_of_line (line : string) : string :=
  strip (replace line "COMMAND:" "").

Lemma split_response_from (lines : list string) (acc : list string * list string) :
  fold_left
    (fun '((commands, text_parts) : list string * list string) line =>
       if startswith (strip line) "COMMAND:"
       then (commands ++ [strip (replace line "COMMAND:" "")], text_parts)
       else (commands, text_parts ++ [line]))
    lines acc
  = (acc.1 ++ map command_of_line (List.filter is_command_line lines),
     acc.2 ++ List.filter (fun line => negb (is_command_line line)) lines).
Proof.
  revert acc.
  induction lines as [|line lines IH]; intros [commands text_parts].
  - simpl. rewrite !app_nil_r. reflexivity.
  - cbn [fold_left List.filter]. rewrite IH.
    assert (is_command_line line = startswith (strip line) "COMMAND:") as E
      by reflexivity.
    rewrite E. clear E.
    destruct (startswith (strip line) "COMMAND:"); cbn [fst snd negb map];
      rewrite <- app_assoc; reflexivity.
Qed.

(** X15.  The lines of a response are divided without loss: the
    lines that, stripped, start with [COMMAND:] give the commands (marker
    removed everywhere in the line, then stripped), in order; all other
    lines are the reply text, verbatim and in order. *)
Theorem split_response_partitions_lines (lines : list string) :
  split_response strip lines
  = (map command_of_line (List.filter is_command_line lines),
     List.filter (fun line => negb (is_command_line line)) lines)
  /\ (length (split_response strip lines).1 + length (split_response strip lines).2
      = length lines)%nat.
Proof.
  assert (split_response strip lines
          = (map command_of_line (List.filter is_command_line lines),
             List.filter (fun line => negb (is_command_line line)) lines)) as H
    by (unfold split_response; rewrite split_response_from; reflexivity).
  split; [exact H|]. rewrite H. cbn [fst snd]. rewrite length_map.
  clear H. induction lines as [|line lines IH]; [reflexivity|].
  cbn [List.filter]. destruct (is_command_line line); cbn [negb];
    rewrite !length_cons; lia.
Qed.

(** Within the maximum length of the bot. *)
Definition fits (b : DiscordBot) command : bool :=
  negb (get (cfg_max_command_length (config b)) 1000 <? py_len command).

Lemma security_check_classified command w :
  classified (log (exec_ command w).2)
  = classified (log w) ++ (if fits (bot w) command then [command] else [])
  /\ config (bot (exec_ command w).2) = config (bot w).
Proof.
  rewrite _execute_with_security_check_eq. unfold fits.
  destruct (_ <? _); cbn [negb].
  - rewrite send_eq. unfold logged. cbn [snd log bot].
    rewrite classified_app. split; reflexivity.
  - cbv zeta. destruct (_ || _).
    + rewrite _execute_command_directly_eq. cbv zeta. unfold logged. cbn [snd log bot].
      rewrite !classified_app. cbn. rewrite <- app_assoc. split; reflexivity.
    + rewrite _request_approval_eq. cbv zeta. unfold logged. cbn [snd log bot].
      rewrite !classified_app. cbn. rewrite <- app_assoc. split; reflexivity.
Qed.

Lemma for_each_classified (commands : list string) w :
  classified (log (for_each OS exec_ commands w).2)
  = classified (log w) ++ List.filter (fits (bot w)) commands
  /\ config (bot (for_each OS exec_ commands w).2) = config (bot w).
Proof.
  revert w. induction commands as [|command commands IH]; intros w.
  - simpl. rewrite app_nil_r. split; reflexivity.
  - cbn [for_each]. unfold mbind, M_bind.
    destruct (security_check_classified command w) as [Hc Hconfig].
    destruct (exec_ command w) as [[] w1]. cbn [snd] in *.
    destruct (IH w1) as [Hc' Hconfig'].
    assert (forall c, fits (bot w1) c = fits (bot w) c) as Hfits
      by (intros c; unfold fits; rewrite Hconfig; reflexivity).
    split; [|congruence].
    rewrite Hc', Hc, <- app_assoc. f_equal. cbn [List.filter].
    rewrite (List.filter_ext _ _ Hfits).
    destruct (fits (bot w) command); reflexivity.
Qed.

(** X16.  Every command extracted from a response goes through the
    security check, in the order of its lines: those within the maximum
    length are classified, in that order, and no other text is. *)
Theorem response_commands_are_classified_in_order (response : string) w :
  let commands := (split_response strip (split response (ascii_of_nat 10))).1 in
  classified
    (log (_handle_command_response lower re_search md5 subprocess_run strip response w).2)
  = classified (log w) ++ List.filter (fits (bot w)) commands.
Proof.
  cbv zeta. unfold _handle_command_response.
  destruct (split_response strip _) as [commands text_parts]. cbn [fst].
  unfold mbind, M_bind.
  set (reply := match text_parts with [] => _ | _ :: _ => _ end).
  assert (classified (log (reply w).2) = classified (log w)
          /\ bot (reply w).2 = bot w) as [Hlog Hbot].
  { unfold reply. destruct text_parts; [split; reflexivity|].
    destruct (truthy _); [|split; reflexivity].
    rewrite send_eq. unfold logged. cbn [snd log bot]. rewrite classified_app.
    cbn. rewrite app_nil_r. split; reflexivity. }
  destruct (reply w) as [[] w1]. cbn [snd] in *.
  destruct (for_each_classified commands w1) as [-> _].
  rewrite Hlog, Hbot. reflexivity.
Qed.

(** X17.  When a question cannot be completed, the exchange is not
    rolled back: the question has already been appended to the history,
    where it stays as the newest entry, no assistant entry is added, the
    error is reported, nothing is run and the ledger is untouched.  This is
    so when the completion call raises, and when the configuration has no
    [os_type], in which case the completion engine is not even called. *)
Theorem failed_question_stays_in_history (question : string) w :
  let stamp := (now (os w)).1 in
  let os1 := (now (os w)).2 in
  let asked := add_message (history (bot w)) "user" question stamp in
  let model := get (cfg_g4f_model (config (bot w))) "gpt-4" in
  let prompt os_type :=
    completion_prompt os_type (_build_context (messages asked)) question in
  let ask := ask_ai lower re_search md5 subprocess_run strip now create_async question in
  last (messages asked) = Some (mkHistoryEntry "user" question stamp)
  /\ (cfg_os_type (config (bot w)) = None ->
      ask w = (tt, mkWorld (set_history asked (bot w)) os1
                     (log w ++ [Send "🤔 Обрабатываю запрос...";
                                Send (ai_error_message "'os_type'")])))
  /\ (forall os_type str_e os2,
        cfg_os_type (config (bot w)) = Some os_type ->
        create_async model (prompt os_type) os1 = (CompletionRaised str_e, os2) ->
        ask w = (tt, mkWorld (set_history asked (bot w)) os2
                       (log w ++ [Send "🤔 Обрабатываю запрос...";
                                  Complete model (prompt os_type);
                                  Send (ai_error_message str_e)]))).
Proof.
  cbv zeta. split; [apply last_add_message|].
  unfold ask_ai, history_add_message, call_create_async, read_bot, send, emit.
  unfold mbind, M_bind, mret, M_ret. cbn [log os bot].
  destruct (now (os w)) as [stamp os1]. cbn [fst snd bot os log config set_history history].
  split.
  - intros ->. cbn [bot os log]. rewrite <- app_assoc. reflexivity.
  - intros os_type str_e os2 -> Hfail. unfold get_history.
    cbn [bot os log history set_history config]. rewrite Hfail.
    cbn [bot os log]. rewrite <- !app_assoc. reflexivity.
Qed.

End AskProperties.

(** ** BotGUI: the settings panel and the configuration file *)

(** [key not in config] keeps the value, otherwise the default is set. *)
Definition or_default {A : Type} (value dflt : option A) : option A :=
  match value with Some v => Some v | None => dflt end.

(** [BotGUI._load_config].  [file] is the dict unpickled from [config.pkl],
    [None] when opening it raises [FileNotFoundError]. *)
Definition _load_config (file : option Config) : Config :=
  match file with
  | Some loaded =>
      mkConfig
        (or_default (cfg_discord_token loaded) (cfg_discord_token DEFAULT_CONFIG))
        (or_default (cfg_command_prefix loaded) (cfg_command_prefix DEFAULT_CONFIG))
        (or_default (cfg_os_type loaded) (cfg_os_type DEFAULT_CONFIG))
        (or_default (cfg_g4f_model loaded) (cfg_g4f_model DEFAULT_CONFIG))
        (or_default (cfg_message_history_limit loaded)
           (cfg_message_history_limit DEFAULT_CONFIG))
        (or_default (cfg_dangerous_commands loaded) (cfg_dangerous_commands DEFAULT_CONFIG))
        (or_default (cfg_auto_approve_safe loaded) (cfg_auto_approve_safe DEFAULT_CONFIG))
        (or_default (cfg_max_command_length loaded) (cfg_max_command_length DEFAULT_CONFIG))
  | None => DEFAULT_CONFIG
  end.

(** The panel: its config dict, the content of [config.pkl] and the bot
    it started, if any.  The bot holds the same dict object as the panel,
    so an assignment to a key of it is seen by both. *)
Record BotGUI := mkBotGUI {
  gui_config : Config;
  config_file : option Config;
  bot_instance : option DiscordBot
}.

Definition BotGUI_init (file : option Config) : BotGUI :=
  mkBotGUI (_load_config file) file None.

Definition set_config (c : Config) (b : DiscordBot) : DiscordBot :=
  mkDiscordBot c (history b) (security_checker b) (executor b) (pending_commands b).

(** Assignments to keys of the shared dict. *)
Definition assign_config (c : Config) (self : BotGUI) : BotGUI :=
  mkBotGUI c (config_file self) (set_config c <$> bot_instance self).

(** [BotGUI._save_config]. *)
Definition _save_config (self : BotGUI) : BotGUI :=
  mkBotGUI (gui_config self) (Some (gui_config self)) (bot_instance self).

(** The values of the input fields of the panel. *)
Record Fields := mkFields {
  token_field : string;
  prefix_field : string;
  os_dropdown : string;
  provider_dropdown : string;
  history_limit_field : string;
  auto_approve_checkbox : bool;
  dangerous_commands_field : string
}.

(** Which line [save_settings] logs when the button called it. *)
Inductive SaveOutcome := Saved | SaveFailed.

Section Settings.

(** [int(text)], [None] when it raises [ValueError]; and [str.strip()]. *)
Variable int_ : string -> option Z.
Variable strip : string -> string.

(** The comma-separated field as a list of terms. *)
Definition parse_dangerous_commands (value : string) : list string :=
  let dangerous_commands := map strip (split value ",") in
  List.filter truthy dangerous_commands.

(** [BotGUI.save_settings].  [writable] tells whether [config.pkl] can
    be written; an exception at any point ends the function, leaving the
    assignments made so far. *)
Definition save_settings (self : BotGUI) (fields : Fields) (writable : bool)
    : BotGUI * SaveOutcome :=
  let c := gui_config self in
  let c := mkConfig (Some (token_field fields)) (Some (prefix_field fields))
             (Some (os_dropdown fields)) (Some (provider_dropdown fields))
             (cfg_message_history_limit c) (cfg_dangerous_commands c)
             (cfg_auto_approve_safe c) (cfg_max_command_length c) in
  match int_ (history_limit_field fields) with
  | None => (assign_config c self, SaveFailed)
  | Some history_limit =>
      let c := mkConfig (cfg_discord_token c) (cfg_command_prefix c) (cfg_os_type c)
                 (cfg_g4f_model c) (Some history_limit)
                 (Some (parse_dangerous_commands (dangerous_commands_field fields)))
                 (Some (auto_approve_checkbox fields)) (cfg_max_command_length c) in
      if writable then (_save_config (assign_config c self), Saved)
      else (assign_config c self, SaveFailed)
  end.

(** [BotGUI.start_bot]: the settings are saved, whatever comes of it, and
    the bot is built on the panel's dict. *)
Definition start_bot (self : BotGUI) (fields : Fields) (writable : bool) : BotGUI :=
  let self := (save_settings self fields writable).1 in
  mkBotGUI (gui_config self) (config_file self) (Some (DiscordBot_init (gui_config self))).

(** [BotGUI.stop_bot]. *)
Definition stop_bot (self : BotGUI) : BotGUI :=
  mkBotGUI (gui_config self) (config_file self) None.

(** The text [main] puts into the dangerous-commands field. *)
Definition dangerous_commands_text (c : Config) : string :=
  join ", " (get (cfg_dangerous_commands c) []).

End Settings.

(** [int(text)] on an optional sign followed by ASCII digits, for
    evaluation. *)
Fixpoint decimal_digits (s : string) (acc : Z) : option Z :=
  match s with
  | EmptyString => Some acc
  | String a s' =>
      let n := Z.of_N (N_of_ascii a) in
      if (48 <=? n) && (n <=? 57) then decimal_digits s' (10 * acc + (n - 48)) else None
  end.

Definition decimal_int (s : string) : option Z :=
  match s with
  | EmptyString => None
  | String "-" (String a s') => Z.opp <$> decimal_digits (String a s') 0
  | String "+" (String a s') => decimal_digits (String a s') 0
  | _ => decimal_digits s 0
  end.

(** Every key of the dict is present. *)
Definition complete (c : Config) : Prop :=
  is_Some (cfg_discord_token c) /\ is_Some (cfg_command_prefix c)
  /\ is_Some (cfg_os_type c) /\ is_Some (cfg_g4f_model c)
  /\ is_Some (cfg_message_history_limit c) /\ is_Some (cfg_dangerous_commands c)
  /\ is_Some (cfg_auto_approve_safe c) /\ is_Some (cfg_max_command_length c).

Lemma or_default_is_Some {A : Type} (value dflt : option A) :
  is_Some dflt -> is_Some (or_default value dflt).
Proof. destruct value; simpl; eauto. Qed.

Lemma _load_config_of_complete (c : Config) : complete c -> _load_config (Some c) = c.
Proof.
  intros (H1 & H2 & H3 & H4 & H5 & H6 & H7 & H8).
  destruct c as [t p o g l d a m]. simpl in *.
  destruct H1 as [? ->], H2 as [? ->], H3 as [? ->], H4 as [? ->],
           H5 as [? ->], H6 as [? ->], H7 as [? ->], H8 as [? ->].
  reflexivity.
Qed.


Section SettingsProperties.

Variable int_ : string -> option Z.
Variable strip : string -> string.

Local Abbreviation save_ := (save_settings int_ strip).

(** X19.  On a panel opened from any file or none, a save whose limit
    field is an integer and whose file can be written stores in
    [config.pkl] exactly the dict the panel then holds, and loading that
    file gives the same dict back.  The dict has the seven settings of the
    fields; [max_command_length], which has no field, keeps its loaded
    value. *)
Theorem saved_settings_load_back
    (file : option Config) (fields : Fields) (history_limit : Z) :
  int_ (history_limit_field fields) = Some history_limit ->
  let self := BotGUI_init file in
  let saved := (save_ self fields true).1 in
  (save_ self fields true).2 = Saved
  /\ config_file saved = Some (gui_config saved)
  /\ _load_config (config_file saved) = gui_config saved
  /\ gui_config saved
     = mkConfig (Some (token_field fields)) (Some (prefix_field fields))
         (Some (os_dropdown fields)) (Some (provider_dropdown fields))
         (Some history_limit)
         (Some (parse_dangerous_commands strip (dangerous_commands_field fields)))
         (Some (auto_approve_checkbox fields))
         (cfg_max_command_length (_load_config file)).
Proof.
  intros Hint. cbv zeta. unfold save_settings. rewrite Hint.
  destruct file as [[t p o g l d a [m|]]|]; repeat split; reflexivity.
Qed.

(** X20.  When the limit field is not an integer, [save_settings] stops
    half way: the token, the prefix, the system and the model of the fields
    are already in the panel's dict (and in the running bot's, which is the
    same dict), while the history limit, the dangerous terms, the
    auto-approve flag and the maximum length keep their old values; nothing
    is written to [config.pkl]. *)
Theorem save_settings_stops_at_bad_limit
    (self : BotGUI) (fields : Fields) (writable : bool) :
  int_ (history_limit_field fields) = None ->
  let half :=
    mkConfig (Some (token_field fields)) (Some (prefix_field fields))
      (Some (os_dropdown fields)) (Some (provider_dropdown fields))
      (cfg_message_history_limit (gui_config self))
      (cfg_dangerous_commands (gui_config self))
      (cfg_auto_approve_safe (gui_config self))
      (cfg_max_command_length (gui_config self)) in
  let result := (save_ self fields writable).1 in
  (save_ self fields writable).2 = SaveFailed
  /\ gui_config result = half
  /\ config_file result = config_file self
  /\ bot_instance result = set_config half <$> bot_instance self.
Proof.
  intros Hint. cbv zeta. unfold save_settings. rewrite Hint.
  repeat split; reflexivity.
Qed.

Lemma Forall_filter_truthy (l : list string) :
  Forall (fun term => term <> "") (List.filter truthy l).
Proof.
  induction l as [|t l IH]; simpl; [constructor|].
  destruct t; simpl; [exact IH|]. constructor; [discriminate | exact IH].
Qed.

(** X21.  The settings panel never stores an empty dangerous term (which
    would match every command): each stored term is a stripped,
    comma-separated piece of the field, in order, and none is empty.  No
    save changes [max_command_length], whatever its outcome. *)
Theorem save_settings_terms_nonempty_length_fixed
    (self : BotGUI) (fields : Fields) (writable : bool) :
  Forall (fun term => term <> "")
    (parse_dangerous_commands strip (dangerous_commands_field fields))
  /\ sublist (parse_dangerous_commands strip (dangerous_commands_field fields))
             (map strip (split (dangerous_commands_field fields) ","))
  /\ ((save_ self fields writable).2 = Saved ->
      cfg_dangerous_commands (gui_config (save_ self fields writable).1)
      = Some (parse_dangerous_commands strip (dangerous_commands_field fields)))
  /\ cfg_max_command_length (gui_config (save_ self fields writable).1)
     = cfg_max_command_length (gui_config self).
Proof.
  split; [apply Forall_filter_truthy|].
  split.
  { unfold parse_dangerous_commands.
    induction (map strip (split (dangerous_commands_field fields) ",")) as [|t l IH];
      simpl; [constructor|].
    destruct (truthy t); [apply sublist_skip | apply sublist_cons]; exact IH. }
  unfold save_settings.
  destruct (int_ (history_limit_field fields)); [destruct writable|];
    (split; [intros H; first [discriminate H | reflexivity] | reflexivity]).
Qed.

(** X22.  Settings saved while the bot runs reach it only in part.  The
    bot reads its dict, which is the panel's, at each use: the new
    auto-approve flag and model apply at once.  Its checker, history and
    executor were built when it was started: the dangerous terms, the
    history limit and the executor's system of that moment stay in force,
    whatever is saved later. *)
Theorem running_bot_sees_the_dict_not_the_rebuilt_parts
    (self : BotGUI) (fields0 fields : Fields) (writable0 writable : bool) :
  let started := start_bot int_ strip self fields0 writable0 in
  let saved := (save_ started fields writable).1 in
  exists b0 b,
    bot_instance started = Some b0
    /\ bot_instance saved = Some b
    /\ config b0 = gui_config started
    /\ config b = gui_config saved
    /\ security_checker b
       = SecurityChecker_init (get (cfg_dangerous_commands (gui_config started)) [])
    /\ limit (history b) = get (cfg_message_history_limit (gui_config started)) 50
    /\ executor b = mkCommandExecutor (get (cfg_os_type (gui_config started)) "windows")
    /\ history b = history b0 /\ pending_commands b = pending_commands b0
    /\ (forall history_limit,
          int_ (history_limit_field fields) = Some history_limit ->
          get (cfg_auto_approve_safe (config b)) false = auto_approve_checkbox fields
          /\ cfg_dangerous_commands (config b)
             = Some (parse_dangerous_commands strip (dangerous_commands_field fields))).
Proof.
  cbv zeta. unfold start_bot.
  set (self0 := (save_ self fields0 writable0).1).
  exists (DiscordBot_init (gui_config self0)).
  clearbody self0. unfold save_settings.
  destruct (int_ (history_limit_field fields)) as [history_limit|];
    [destruct writable|];
    eexists;
    do 9 (split; [reflexivity|]);
    intros history_limit' [=]; subst; split; reflexivity.
Qed.

(** No character of the text is the separator. *)
Fixpoint free_of (sep : ascii) (s : string) : bool :=
  match s with
  | EmptyString => true
  | String a s' => negb (Ascii.eqb a sep) && free_of sep s'
  end.

Lemma split_free (s : string) (sep : ascii) :
  free_of sep s = true -> split s sep = [s].
Proof.
  induction s as [|a s IH]; simpl; [reflexivity|].
  intros H. apply andb_true_iff in H as [Ha Hs].
  apply negb_true_iff in Ha. rewrite Ha, (IH Hs). reflexivity.
Qed.

Lemma split_app_sep (s t : string) (sep : ascii) :
  free_of sep s = true -> split (s +:+ String sep t) sep = s :: split t sep.
Proof.
  induction s as [|a s IH]; simpl.
  - intros _. rewrite Ascii.eqb_refl. reflexivity.
  - intros H. apply andb_true_iff in H as [Ha Hs].
    apply negb_true_iff in Ha. rewrite Ha, (IH Hs). reflexivity.
Qed.

Lemma join_cons_char (a : ascii) (sep t : string) (rest : list string) :
  String a (join sep (t :: rest)) = join sep (String a t :: rest).
Proof. destruct rest; reflexivity. Qed.

Lemma split_join_comma_space (t : string) (rest : list string) :
  free_of "," t = true ->
  Forall (fun term => free_of "," term = true) rest ->
  split (join ", " (t :: rest)) "," = t :: map (fun term => " " +:+ term) rest.
Proof.
  revert t. induction rest as [|t' rest IH]; intros t Ht Hrest.
  - simpl. apply split_free. exact Ht.
  - inversion Hrest as [|? ? Ht' Hrest']; subst.
    change (join ", " (t :: t' :: rest))
      with (t +:+ String "," (String " " (join ", " (t' :: rest)))).
    rewrite split_app_sep by exact Ht.
    rewrite join_cons_char, IH by (simpl; assumption).
    reflexivity.
Qed.

(** A term as the panel can show and read it back: not empty, without a
    comma, and left alone by [strip], also behind a space. *)
Definition plain_term (term : string) : Prop :=
  strip term = term /\ strip (" " +:+ term) = term
  /\ term <> "" /\ free_of "," term = true.

Lemma filter_truthy_strip_spaced (rest : list string) :
  Forall plain_term rest ->
  List.filter truthy (map strip (map (fun term => " " +:+ term) rest)) = rest.
Proof.
  induction 1 as [|t rest (_ & Hspaced & Hne & _) _ IH]; [reflexivity|].
  cbn [map List.filter]. rewrite Hspaced, IH.
  destruct t; [destruct Hne|]; reflexivity.
Qed.

(** X23.  The dangerous terms survive the panel: shown in the field,
    joined by a comma and a space, and read back by [save_settings], a list
    of terms that are not empty, have no comma and no blank at either end
    comes back as it was. *)
Theorem dangerous_terms_read_back (c : Config) (terms : list string) :
  strip "" = "" ->
  cfg_dangerous_commands c = Some terms ->
  Forall plain_term terms ->
  parse_dangerous_commands strip (dangerous_commands_text c) = terms.
Proof.
  intros Hempty Hterms Hplain. unfold dangerous_commands_text, parse_dangerous_commands.
  rewrite Hterms. cbn [get].
  destruct terms as [|t rest].
  - cbn [join split map]. rewrite Hempty. reflexivity.
  - inversion Hplain as [|? ? (Hstrip & _ & Hne & Hfree) Hrest]; subst.
    rewrite split_join_comma_space.
    + cbn [map List.filter]. rewrite Hstrip, filter_truthy_strip_spaced by exact Hrest.
      destruct t; [destruct Hne|]; reflexivity.
    + exact Hfree.
    + eapply Forall_impl; [exact Hrest|]. intros term (_ & _ & _ & H). exact H.
Qed.

End SettingsProperties.

Lemma saved_settings_load_back_witness :
  let fields := mkFields "token" "!" "linux" "gpt-4" "75" true "rm -rf, mkfs,, dd if=" in
  decimal_int (history_limit_field fields) = Some 75
  /\ cfg_dangerous_commands
       (gui_config (save_settings decimal_int Impl.strip (BotGUI_init None) fields true).1)
     = Some ["rm -rf"; "mkfs"; "dd if="].
Proof.
  cbv zeta. split; [reflexivity|].
  pose proof (saved_settings_load_back decimal_int Impl.strip None
                (mkFields "token" "!" "linux" "gpt-4" "75" true "rm -rf, mkfs,, dd if=")
                75 eq_refl) as H.
  cbv zeta in H. destruct H as [_ [_ [_ H]]]. rewrite H. reflexivity.
Defined.

Lemma save_settings_stops_at_bad_limit_witness :
  let fields := mkFields "token" "?" "linux" "gpt-4" "many" true "" in
  decimal_int (history_limit_field fields) = None
  /\ config_file (save_settings decimal_int Impl.strip (BotGUI_init None) fields true).1
     = None
  /\ cfg_auto_approve_safe
       (gui_config (save_settings decimal_int Impl.strip (BotGUI_init None) fields true).1)
     = Some false.
Proof.
  cbv zeta. split; [reflexivity|].
  pose proof (save_settings_stops_at_bad_limit decimal_int Impl.strip (BotGUI_init None)
                (mkFields "token" "?" "linux" "gpt-4" "many" true "") true eq_refl) as H.
  cbv zeta in H. destruct H as [_ [Hconfig [Hfile _]]].
  rewrite Hconfig, Hfile. split; reflexivity.
Defined.

Lemma dangerous_terms_read_back_witness :
  Impl.strip "" = ""
  /\ cfg_dangerous_commands DEFAULT_CONFIG
     = Some (get (cfg_dangerous_commands DEFAULT_CONFIG) [])
  /\ Forall (plain_term Impl.strip) (get (cfg_dangerous_commands DEFAULT_CONFIG) [])
  /\ parse_dangerous_commands Impl.strip
       (dangerous_commands_text DEFAULT_CONFIG)
     = get (cfg_dangerous_commands DEFAULT_CONFIG) [].
Proof.
  assert (Forall (plain_term Impl.strip) (get (cfg_dangerous_commands DEFAULT_CONFIG) []))
    as Hplain
    by (repeat (constructor;
                  [split; [reflexivity|]; split; [reflexivity|];
                   split; [discriminate | reflexivity]|]); constructor).
  split; [reflexivity|]. split; [reflexivity|]. split; [exact Hplain|].
  exact (dangerous_terms_read_back Impl.strip DEFAULT_CONFIG _ eq_refl eq_refl Hplain).
Defined.

Lemma every_ticket_is_an_unsafe_classified_command_witness :
  let w := run_commands Impl.lower Impl.re_search Impl.md5 ScriptedOS scripted_run
             Impl.strip scripted_now scripted_create_async
             [Exec "dir"; Exec "echo hello | cat"]
             (mkWorld (DiscordBot_init DEFAULT_CONFIG) (mkScriptedOS [] [] 0) []) in
  ledger w !! "4a75baba" = Some "echo hello | cat"
  /\ "4a75baba" = command_id_of Impl.md5 "echo hello | cat"
  /\ In "echo hello | cat" (classified (log w)).
Proof.
  cbv zeta.
  assert (ledger
            (run_commands Impl.lower Impl.re_search Impl.md5 ScriptedOS scripted_run
               Impl.strip scripted_now scripted_create_async
               [Exec "dir"; Exec "echo hello | cat"]
               (mkWorld (DiscordBot_init DEFAULT_CONFIG) (mkScriptedOS [] [] 0) []))
          !! "4a75baba" = Some "echo hello | cat") as Hfound
    by (vm_compute; reflexivity).
  split; [exact Hfound|].
  pose proof (every_ticket_is_an_unsafe_classified_command
                Impl.lower Impl.re_search Impl.md5 ScriptedOS scripted_run
                Impl.strip scripted_now scripted_create_async
                DEFAULT_CONFIG (mkScriptedOS [] [] 0)
                [Exec "dir"; Exec "echo hello | cat"]
                "4a75baba" "echo hello | cat" Hfound) as H.
  destruct H as [Hid [_ [Hin _]]]. split; [exact Hid | exact Hin].
Defined.
